(** * featured: feature construction, regression scoring and backtest

    A shallow embedding of the Go program [featured] (package [main]) and
    the verification of its specification.  The program aligns three price
    series by calendar date, builds one (feature vector, label) example per
    day, partitions the examples by a split date, fits a least-squares
    model, scores it with R², and backtests a threshold rule.

    The sources hold three successive revisions of the program.  The
    embedding follows the last one: the one whose closest-prior lookup
    also returns the date found, and which has the backtest and the Sharpe
    ratio.

    Conventions of the embedding.
    - [float64] values are IEEE 754 binary64 numbers as specified by the
      Standard Library's [SpecFloat] (precision 53, [emax] 1024), every
      operation rounded on its own to nearest-even.
    - [time.Time] values are instants in UTC, counted in nanoseconds since
      the Unix epoch; a map keyed by [time.Time] is a [gmap] keyed by that
      count.
    - [commons.Fatalf] and run-time panics end the run: fallible code lives
      in the [outcome] monad.
    - The packages [commons], [ohlc], [linear] and [fmt] are not part of the
      program; what the program calls in them is an interface. *)

From Stdlib Require Import ZArith SpecFloat Lia.
From Equations Require Import Equations.
From stdpp Require Import gmap strings list.

Open Scope Z_scope.

(* ===================================================================== *)
(** * Part I: the program *)
(* ===================================================================== *)

(** ** float64 *)

Abbreviation float64 := spec_float.

Definition prec : Z := 53.
Definition emax : Z := 1024.

Declare Scope f64_scope.
Delimit Scope f64_scope with F.
Bind Scope f64_scope with spec_float.

Notation "x + y" := (SFadd prec emax x y) : f64_scope.
Notation "x - y" := (SFsub prec emax x y) : f64_scope.
Notation "x * y" := (SFmul prec emax x y) : f64_scope.
Notation "x / y" := (SFdiv prec emax x y) : f64_scope.
Notation "- x" := (SFopp x) : f64_scope.
(** Go's comparison operators on float64: all false on NaN except [!=]. *)
Notation "x <? y" := (SFltb x y) : f64_scope.
Notation "x >? y" := (SFltb y x) : f64_scope.
Notation "x <=? y" := (SFleb x y) : f64_scope.
Notation "x >=? y" := (SFleb y x) : f64_scope.
Notation "x =? y" := (SFeqb x y) : f64_scope.
Notation "x !=? y" := (negb (SFeqb x y)) (at level 70) : f64_scope.

(** The float64 nearest to an integer constant. *)
Definition f64 (z : Z) : float64 := binary_normalize prec emax z 0 false.

Definition NaN : float64 := S754_nan.
Definition Zero : float64 := S754_zero false.
Definition One : float64 := Eval cbv in f64 1.

(** Structural equality of float64 values (not Go's [==]). *)
#[global] Instance float64_eq_dec : EqDecision float64.
Proof. solve_decision. Defined.

(** [math.Sqrt], [math.IsInf] and [math.NaN]. *)
Definition Sqrt (x : float64) : float64 := SFsqrt prec emax x.

Definition IsInf (f : float64) (sign : Z) : bool :=
  match f with
  | S754_infinity s => if s then sign <=? 0 else 0 <=? sign
  | _ => false
  end.

Definition is_nan (f : float64) : bool :=
  match f with S754_nan => true | _ => false end.

(** A float64 that is a number: a zero or a finite non-zero value. *)
Definition is_finite (f : float64) : bool :=
  match f with S754_zero _ | S754_finite _ _ _ => true | _ => false end.

(** A finite float64 other than ±0. *)
Definition is_finite_nonzero (f : float64) : bool :=
  match f with S754_finite _ _ _ => true | _ => false end.

(** ** time.Time and time.Duration *)

Abbreviation Time := Z (only parsing).
Abbreviation Duration := Z (only parsing).

Definition Nanosecond : Duration := 1.
Definition Second : Duration := 1000000000 * Nanosecond.
Definition Hour : Duration := 3600 * Second.
Definition nsPerDay : Duration := 24 * Hour.

(** [t.AddDate(0, 0, days)] in UTC.  Go computes the result in 64-bit
    seconds: the sum below is what it returns as long as that result is a
    time Go can represent, which holds for the one-day steps of the
    program and for any number of days in the int32 range. *)
Definition AddDate (t : Time) (days : Z) : Time := t + days * nsPerDay.

(** [t.Before(u)]. *)
Definition Before (t u : Time) : bool := t <? u.

(** [time.Time{}], the zero instant: January 1, year 1, 00:00 UTC. *)
Definition zeroTime : Time := -62135596800 * Second.

(** [time.Weekday]: Sunday is 0, Monday is 1, ..., Saturday is 6. *)
Abbreviation Weekday := Z (only parsing).
Definition Sunday : Weekday := 0.
Definition Monday : Weekday := 1.
Definition Tuesday : Weekday := 2.
Definition Wednesday : Weekday := 3.
Definition Thursday : Weekday := 4.
Definition Friday : Weekday := 5.
Definition Saturday : Weekday := 6.

(** The names [time.Weekday.String] returns, indexed by weekday. *)
Definition longDayNames : list string :=
  ["Sunday"; "Monday"; "Tuesday"; "Wednesday"; "Thursday"; "Friday"; "Saturday"].

(** [t.Weekday()]: the Unix epoch fell on a Thursday. *)
Definition WeekdayOf (t : Time) : Weekday := (t `div` nsPerDay + Thursday) `mod` 7.

(** Modelled from the spec: [commons.GetDate], absent from the sources;
    section 4.1 keys a collapsed series "by calendar date (time-of-day
    discarded)": the instant of midnight that opens the day of [t]. *)
Definition GetDate (t : Time) : Time := t - t `mod` nsPerDay.

(** Modelled from the spec: [commons.GetTimeOfDay], absent from the
    sources; the time elapsed since midnight, compared by the program with
    the session end of 21:00. *)
Definition GetTimeOfDay (t : Time) : Duration := t `mod` nsPerDay.

(** ** Failure: [commons.Fatalf] and run-time panics *)

Inductive failure :=
  | FitFailed            (* "Failed to fit model: %v" *)
  | PredictionFailed     (* "Prediction failed: %v" *)
  | IndexOutOfRange.     (* slice index out of range *)

Inductive outcome (A : Type) :=
  | Done (a : A)
  | Abort (f : failure).
Arguments Done {A} a.
Arguments Abort {A} f.

#[global] Instance outcome_ret : MRet outcome := λ A a, Done a.
#[global] Instance outcome_bind : MBind outcome := λ A B k m,
  match m with Done a => k a | Abort f => Abort f end.

(** [err != nil] after a fallible library call. *)
Definition orFatal {A} (f : failure) (r : option A) : outcome A :=
  match r with Some a => Done a | None => Abort f end.

(** [s[i]] on a slice. *)
Definition index {A} (s : list A) (i : nat) : outcome A :=
  orFatal IndexOutOfRange (s !! i).

(** [for i := range n { body }] with the loop state threaded through. *)
Fixpoint forRange {S} (body : nat → S → outcome S) (i : nat) (n : nat) (s : S) : outcome S :=
  match n with
  | O => Done s
  | S n' => s' ← body i s; forRange body (Datatypes.S i) n' s'
  end.

(** ** Constants and configuration *)

Definition sessionEnd : Duration := 21 * Hour.
Definition daysPerWeek : Z := 7.
Definition bitcoinSymbol : string := "BTCUSDT".
Definition logisticMethod : string := "Batch Gradient Ascent".
Definition alpha : float64 := (f64 1 / f64 1000)%F.
Definition regularization : float64 := Zero.
Definition maxIterations : Z := 10000.
Definition featureHighlightThreshold : float64 := (f64 5 / f64 100)%F.
Definition weeksPerYear : Z := 52.

Module Asset.
Record t := { Symbol : string; StartDate : option Time }.
End Asset.

(** The configuration is a process-wide value read by every function. *)
Class Configuration := {
  StartDate : Time;
  SplitDate : Time;
  EndDate : Time;
  IndexSymbol : string;
  EnableMomentum : bool;
  EnableReference : bool;
  EnableIndex : bool;
  EnableWeekdays : bool;
  EnableWeekdayFilter : bool;
  WeekdayFilter : Weekday;
  HoldingTime : Z;
  LongThreshold : float64;
  ShortThreshold : float64;
  RiskFreeRate : float64;
  Assets : list Asset.t;
}.

(** [ohlc.Record]: the program reads the timestamp and the close only. *)
Record Record_ := { Timestamp : Time; Close : float64 }.

(** ** Interfaces of the packages the program calls *)

(** [ohlc]: the two record providers (symbol to records; directory and
    time frame are fixed by the call site). *)
Class Ohlc := {
  MustReadBarchart : string → list Record_;
  MustReadBinance : string → list Record_;
}.

(** [commons] statistics and [commons]/[fmt] formatting. *)
Class Commons := {
  Mean : list float64 → float64;
  StdDev : list float64 → float64;
  FormatPercentage : float64 → Z → string;
  Median : list float64 → float64;
  Sprintf : string → float64 → string;
  White : string → string;
  Green : string → string;
  Red : string → string;
}.

(** [linear.LeastSquares]: construction, [Learn], [Predict] and the
    [Parameters] field.  [None] is a non-nil error. *)
Class Linear (LeastSquares : Type) := {
  NewLeastSquares :
    string → float64 → float64 → Z → list (list float64) → list float64 → LeastSquares;
  Learn : LeastSquares → option LeastSquares;
  Predict : LeastSquares → list float64 → option (list float64);
  Parameters : LeastSquares → list float64;
}.

Abbreviation timePriceMap := (gmap Z float64) (only parsing).

Record regressionData := {
  cells : list string;
  oosR2Score : float64;
}.

(** ** The program *)

Section Program.
Context {configuration : Configuration}.
Context {ohlc : Ohlc} {commons : Commons}.
Context {LeastSquares : Type} {linear : Linear LeastSquares}.

(** The body of the loop of [loadDailyRecords] on one record. *)
Definition loadDailyRecord (startDate : option Time) (sessionEndFilter : bool)
    (output : timePriceMap) (record : Record_) : timePriceMap :=
  if match startDate with
     | Some start => Before (Timestamp record) start
     | None => false
     end
  then output
  else if sessionEndFilter then
    let timeOfDay := GetTimeOfDay (Timestamp record) in
    if decide (timeOfDay = sessionEnd) then
      let date := GetDate (Timestamp record) in
      <[date := Close record]> output
    else output
  else <[Timestamp record := Close record]> output.

Definition loadDailyRecords (symbol : string) (startDate : option Time)
    (sessionEndFilter : bool) (barchart : bool) : timePriceMap :=
  let records :=
    if barchart then MustReadBarchart symbol else MustReadBinance symbol in
  foldl (loadDailyRecord startDate sessionEndFilter) ∅ records.

Definition getRateOfChange (a b : float64) : float64 := (a / b - One)%F.

(** [getClosestRecord]: [n] is the number of iterations left of
    [for range 10]. *)
Fixpoint getClosestRecordLoop (n : nat) (date : Time) (indexMap : timePriceMap)
    : Time * float64 * bool :=
  match n with
  | O => (zeroTime, NaN, false)
  | S n' =>
    match indexMap !! date with
    | Some close => (date, close, true)
    | None => getClosestRecordLoop n' (AddDate date (-1)) indexMap
    end
  end.

Definition getClosestRecord (date : Time) (indexMap : timePriceMap)
    : Time * float64 * bool :=
  getClosestRecordLoop 10 date indexMap.

(** *** Feature and label construction *)

Record partitions := {
  trainingFeatures : list (list float64);
  trainingLabels : list float64;
  testFeatures : list (list float64);
  testLabels : list float64;
}.

Definition noExamples : partitions :=
  {| trainingFeatures := []; trainingLabels := [];
     testFeatures := []; testLabels := [] |}.

(** The weekday indicators appended when [EnableWeekdays] is set:
    [for j := range daysPerWeek]. *)
Definition appendWeekdays (weekday : Weekday) (dailyFeatures : list float64)
    : list float64 :=
  let weekdayIndex := Z.rem (weekday + 6) daysPerWeek in
  foldl (λ dailyFeatures j,
           let value := if decide (j = weekdayIndex) then One else Zero in
           dailyFeatures ++ [value])
        dailyFeatures (seqZ 0 daysPerWeek).

(** The body of the date loop of [getRegressionCells] up to the label:
    [None] is a [continue]. *)
Definition dailyExample (symbol : string)
    (assetMap referenceMap indexMap : timePriceMap) (date : Time)
    : option (list float64 * float64) :=
  let weekday := WeekdayOf date in
  if EnableWeekdayFilter && negb (weekday =? WeekdayFilter) then None else
  let '(currentIndexCloseDate, currentIndexClose, exists_) :=
    getClosestRecord date indexMap in
  if negb exists_ then None else
  let previousIndexCloseDate := AddDate currentIndexCloseDate (-1) in
  let '(_, previousIndexClose, exists_) :=
    getClosestRecord previousIndexCloseDate indexMap in
  if negb exists_ then None else
  currentAssetClose ← assetMap !! date;
  let previousDate := AddDate date (-1) in
  previousAssetClose ← assetMap !! previousDate;
  let nextCloseTimestamp := AddDate date HoldingTime in
  nextAssetClose ← assetMap !! nextCloseTimestamp;
  currentReferenceClose ← referenceMap !! date;
  previousReferenceClose ← referenceMap !! previousDate;
  let assetMomentum := getRateOfChange currentAssetClose previousAssetClose in
  let referenceMomentum :=
    if decide (symbol ≠ bitcoinSymbol)
    then getRateOfChange currentReferenceClose previousReferenceClose
    else Zero in
  let indexMomentum := getRateOfChange currentIndexClose previousIndexClose in
  let dailyFeatures := [] in
  let dailyFeatures :=
    if EnableMomentum then dailyFeatures ++ [assetMomentum] else dailyFeatures in
  let dailyFeatures :=
    if EnableReference then dailyFeatures ++ [referenceMomentum] else dailyFeatures in
  let dailyFeatures :=
    if EnableIndex then dailyFeatures ++ [indexMomentum] else dailyFeatures in
  let dailyFeatures :=
    if EnableWeekdays then appendWeekdays weekday dailyFeatures else dailyFeatures in
  let label := getRateOfChange nextAssetClose currentAssetClose in
  Some (dailyFeatures, label).

(** The end of the loop body: the example goes to one partition. *)
Definition routeExample (date : Time) (example : list float64 * float64)
    (p : partitions) : partitions :=
  let '(dailyFeatures, label) := example in
  if Before date SplitDate then
    {| trainingFeatures := trainingFeatures p ++ [dailyFeatures];
       trainingLabels := trainingLabels p ++ [label];
       testFeatures := testFeatures p;
       testLabels := testLabels p |}
  else
    {| trainingFeatures := trainingFeatures p;
       trainingLabels := trainingLabels p;
       testFeatures := testFeatures p ++ [dailyFeatures];
       testLabels := testLabels p ++ [label] |}.

Definition dateStep (symbol : string)
    (assetMap referenceMap indexMap : timePriceMap) (date : Time)
    (p : partitions) : partitions :=
  match dailyExample symbol assetMap referenceMap indexMap date with
  | Some example => routeExample date example p
  | None => p
  end.

(** [for date := StartDate; date.Before(EndDate); date = date.AddDate(0, 0, 1)]. *)
Equations? forDates (symbol : string)
    (assetMap referenceMap indexMap : timePriceMap) (date : Time)
    (p : partitions) : partitions
    by wf (Z.to_nat ((EndDate - date + nsPerDay - 1) `div` nsPerDay)) lt :=
  forDates symbol assetMap referenceMap indexMap date p
    with decide (Is_true (Before date EndDate)) := {
    | left _ =>
        forDates symbol assetMap referenceMap indexMap (AddDate date 1)
          (dateStep symbol assetMap referenceMap indexMap date p)
    | right _ => p }.
Proof.
  unfold Before in i. apply Is_true_true, Z.ltb_lt in i.
  assert (0 < nsPerDay) as Hpos by reflexivity. unfold AddDate.
  replace (EndDate - date + nsPerDay - 1)
    with (EndDate - (date + 1 * nsPerDay) + nsPerDay - 1 + 1 * nsPerDay) by lia.
  rewrite Z.div_add by lia.
  assert (0 < (EndDate - (date + 1 * nsPerDay) + nsPerDay - 1) `div` nsPerDay + 1);
    [|lia].
  replace ((EndDate - (date + 1 * nsPerDay) + nsPerDay - 1) `div` nsPerDay + 1)
    with ((EndDate - (date + 1 * nsPerDay) + nsPerDay - 1 + 1 * nsPerDay) `div` nsPerDay)
    by (rewrite Z.div_add by lia; lia).
  apply Z.div_str_pos. lia.
Qed.

(** *** Scoring *)

Definition getR2Score (features : list (list float64)) (labels : list float64)
    (model : LeastSquares) : outcome float64 :=
  let meanObserved := Mean labels in
  '(residualSum, totalSum) ←
    forRange (λ i '(residualSum, totalSum),
        label ← index labels i;
        f ← index features i;
        prediction ← orFatal PredictionFailed (Predict model f);
        prediction0 ← index prediction 0;
        let residualDelta := (label - prediction0)%F in
        let residualSum := (residualSum + residualDelta * residualDelta)%F in
        let totalDelta := (label - meanObserved)%F in
        let totalSum := (totalSum + totalDelta * totalDelta)%F in
        Done (residualSum, totalSum))
      0%nat (length features) (Zero, Zero);
  let r2Score := (One - residualSum / totalSum)%F in
  Done r2Score.

(** *** Backtest *)

Definition runBacktest (features : list (list float64)) (labels : list float64)
    (model : LeastSquares) : outcome (list float64 * list float64) :=
  forRange (λ i '(longReturns, shortReturns),
      f ← index features i;
      prediction ← orFatal PredictionFailed (Predict model f);
      signal ← index prediction 0;
      label ← index labels i;
      let longReturns :=
        if (signal >? LongThreshold)%F
        then longReturns ++ [label]
        else longReturns ++ [Zero] in
      let shortReturns :=
        if (signal <? ShortThreshold)%F
        then let shortReturn := (One / (One + label) - One)%F in
             shortReturns ++ [shortReturn]
        else shortReturns ++ [Zero] in
      Done (longReturns, shortReturns))
    0%nat (length features) ([], []).

Definition getSharpeRatio (weeklyReturns : list float64) : float64 :=
  if (length weeklyReturns <? 2)%nat then NaN else
  let meanReturn := Mean weeklyReturns in
  let stdDev := StdDev weeklyReturns in
  let riskFreeRate := (RiskFreeRate / f64 weeksPerYear)%F in
  let weeklySharpeRatio := ((meanReturn - riskFreeRate) / stdDev)%F in
  let sharpeRatio := (Sqrt (f64 weeksPerYear) * weeklySharpeRatio)%F in
  if IsInf sharpeRatio 1 || IsInf sharpeRatio (-1) then NaN else sharpeRatio.

Definition analyzeReturns (returns : list float64) : float64 * float64 :=
  let totalReturn := foldl (λ totalReturn r, (totalReturn + r)%F) Zero returns in
  let sharpeRatio := getSharpeRatio returns in
  (totalReturn, sharpeRatio).

(** *** The report row *)

Definition addParameter (model : LeastSquares) (index_ : nat)
    (cells : list string) : outcome (list string) :=
  parameter ← index (Parameters model) index_;
  let cell := if (parameter !=? Zero)%F then Sprintf "%.4f" parameter else "-" in
  let cell :=
    if (parameter >=? featureHighlightThreshold)%F then Green cell
    else if (parameter <=? - featureHighlightThreshold)%F then Red cell
    else cell in
  Done (cells ++ [cell]).

Definition addR2Score (r2Score : float64) (cells : list string) : list string :=
  let cell := FormatPercentage r2Score 2 in
  cells ++ [cell].

Definition addReturns (returns : list float64) (cells : list string) : list string :=
  let '(totalReturn, sharpeRatio) := analyzeReturns returns in
  let '(totalReturnString, sharpeRatioString) :=
    if (totalReturn !=? Zero)%F
    then (FormatPercentage totalReturn 2, Sprintf "%.2f" sharpeRatio)
    else ("-", "-") in
  cells ++ [totalReturnString; sharpeRatioString].

Definition getRegressionCells (symbol : string) (startDate : option Time)
    (referenceMap indexMap : timePriceMap) : outcome regressionData :=
  let assetMap := loadDailyRecords symbol startDate true false in
  let p := forDates symbol assetMap referenceMap indexMap StartDate noExamples in
  let model :=
    NewLeastSquares logisticMethod alpha regularization maxIterations
      (trainingFeatures p) (trainingLabels p) in
  model ← orFatal FitFailed (Learn model);
  let cells := [White symbol] in
  cells ← forRange (addParameter model) 1%nat (length (Parameters model) - 1)%nat cells;
  cells ← addParameter model 0%nat cells;
  isR2Score ← getR2Score (trainingFeatures p) (trainingLabels p) model;
  let cells := addR2Score isR2Score cells in
  oosR2Score ← getR2Score (testFeatures p) (testLabels p) model;
  let cells := addR2Score oosR2Score cells in
  '(longReturns, shortReturns) ← runBacktest (testFeatures p) (testLabels p) model;
  let cells := addReturns longReturns cells in
  let cells := addReturns shortReturns cells in
  let data := {| cells := cells; oosR2Score := oosR2Score |} in
  Done data.

(** Modelled from the spec: [commons.ParallelMap], absent from the
    sources; by section 5 the results are "collected back into a single
    ordered list matching the input asset order" and a fatal error in any
    one pipeline "aborts the entire run". *)
Definition ParallelMap {A B} (f : A → outcome B) (l : list A) : outcome (list B) :=
  foldr (λ a rest, b ← f a; bs ← rest; Done (b :: bs)) (Done []) l.

(** [analyzeData] up to the rendering of the table: the rows of the
    report and the median of the out-of-sample scores. *)
Definition analyzeData : outcome (list (list string) * float64) :=
  let referenceMap := loadDailyRecords bitcoinSymbol None true false in
  let indexMap := loadDailyRecords IndexSymbol None false true in
  data ← ParallelMap (λ a : Asset.t,
            getRegressionCells (Asset.Symbol a) (Asset.StartDate a)
              referenceMap indexMap) Assets;
  let '(rows, oosR2Scores) :=
    foldl (λ '(rows, oosR2Scores) d,
             (rows ++ [cells d], oosR2Scores ++ [oosR2Score d]))
          ([], []) data in
  let medianR2Score := Median oosR2Scores in
  Done (rows, medianR2Score).

End Program.

(** ** Predicates of the specification *)

(** The records [loadDailyRecords] retains in collapse mode: not before the
    optional start date, and stamped at the session end. *)
Definition retained (startDate : option Time) (record : Record_) : bool :=
  negb (match startDate with
        | Some start => Before (Timestamp record) start
        | None => false
        end)
  && bool_decide (GetTimeOfDay (Timestamp record) = sessionEnd).

(** The signal the program reads off a model for one feature vector:
    [prediction[0]] of a [Predict] that returned no error. *)
Definition predict1 {LeastSquares} {linear : Linear LeastSquares}
    (model : LeastSquares) (f : list float64) : option float64 :=
  Predict model f ≫= head.

(** A sum of squares, accumulated from the left starting at 0.0. *)
Definition sumSquares (xs : list float64) : float64 :=
  foldl (λ sum x, (sum + x * x)%F) Zero xs.

(** The dates the loop of [getRegressionCells] visits between [start]
    (included) and [stop] (excluded): [start], one day later, and so on. *)
Definition dates (start stop : Time) : list Time :=
  (λ k, AddDate start k) <$> seqZ 0 ((stop - start + nsPerDay - 1) `div` nsPerDay).

(** The one-hot weekday vector with its 1.0 in slot [weekdayIndex]. *)
Definition oneHot (weekdayIndex : Z) : list float64 :=
  (λ j, if decide (j = weekdayIndex) then One else Zero) <$> seqZ 0 daysPerWeek.

(** The number of features of an example under the configuration. *)
Definition featureCount {configuration : Configuration} : nat :=
  ((if EnableMomentum then 1 else 0) + (if EnableReference then 1 else 0) +
   (if EnableIndex then 1 else 0) + (if EnableWeekdays then 7 else 0))%nat.

(** The cell [addParameter] renders for one parameter. *)
Definition parameterCell {commons : Commons} (parameter : float64) : string :=
  let cell := if (parameter !=? Zero)%F then Sprintf "%.4f" parameter else "-" in
  if (parameter >=? featureHighlightThreshold)%F then Green cell
  else if (parameter <=? - featureHighlightThreshold)%F then Red cell
  else cell.

(** The two cells [addReturns] renders for one return stream. *)
Definition returnCells {configuration : Configuration} {commons : Commons}
    (returns : list float64) : list string :=
  addReturns returns [].

(** The records [loadDailyRecords] writes to the series in either mode. *)
Definition kept (startDate : option Time) (sessionEndFilter : bool)
    (record : Record_) : bool :=
  negb (match startDate with
        | Some start => Before (Timestamp record) start
        | None => false
        end)
  && (negb sessionEndFilter
      || bool_decide (GetTimeOfDay (Timestamp record) = sessionEnd)).

(** The key under which [loadDailyRecords] stores a record it keeps. *)
Definition keyOf (sessionEndFilter : bool) (record : Record_) : Time :=
  if sessionEndFilter then GetDate (Timestamp record) else Timestamp record.

(** ** The header of the report *)

(** [tw.Align]: the two column alignments the program uses. *)
Inductive Align := AlignDefault | AlignRight.

Section Header.
Context {configuration : Configuration}.

(** The header row built by [analyzeData]. *)
Definition header : list string :=
  let header := ["Symbol"] in
  let header := if EnableMomentum then header ++ ["Momentum"] else header in
  let header := if EnableReference then header ++ ["BTC"] else header in
  let header := if EnableIndex then header ++ [IndexSymbol] else header in
  let header :=
    if EnableWeekdays then
      let weekdays :=
        ["Monday"; "Tuesday"; "Wednesday"; "Thursday"; "Friday"; "Saturday";
         "Sunday"] in
      header ++ weekdays
    else header in
  header ++ ["Intercept"; "IS R²"; "OOS R²"; "Ret (Long)"; "SR (Long)";
             "Ret (Short)"; "SR (Short)"].

(** [for len(alignments) < len(header) { alignments = append(alignments, tw.AlignRight) }]. *)
Equations? padAlignments (header : list string) (alignments : list Align)
    : list Align
    by wf (length header - length alignments)%nat lt :=
  padAlignments header alignments
    with decide (length alignments < length header)%nat := {
    | left _ => padAlignments header (alignments ++ [AlignRight])
    | right _ => alignments }.
Proof. rewrite length_app. simpl. lia. Qed.

(** The column alignments built by [analyzeData]. *)
Definition alignments : list Align := padAlignments header [AlignDefault].

End Header.

(** ** The earlier revisions of the program

    The sources keep the two earlier revisions of [featured].  What they
    do differently from the last one is embedded here; [loadDailyRecords],
    [getRateOfChange], [getR2Score] and the routing by split date are the
    ones above. *)

(** The second revision: the date loop with a closest-prior lookup that
    returns no date, and compile-time feature flags. *)
Module V2.

Definition enableMomentum : bool := true.
Definition enableReference : bool := true.
Definition enableIndex : bool := true.
Definition enableWeekdays : bool := true.
Definition enableWeekdayFilter : bool := false.
Definition weekdayFilter : Weekday := Tuesday.

Fixpoint getClosestRecordLoop (n : nat) (date : Time) (indexMap : timePriceMap)
    : float64 * bool :=
  match n with
  | O => (NaN, false)
  | S n' =>
    match indexMap !! date with
    | Some close => (close, true)
    | None => getClosestRecordLoop n' (AddDate date (-1)) indexMap
    end
  end.

Definition getClosestRecord (date : Time) (indexMap : timePriceMap)
    : float64 * bool :=
  getClosestRecordLoop 10 date indexMap.

(** The body of the date loop of [getRegressionCells] up to the label:
    [None] is a [continue]. *)
Definition dailyExample (symbol : string)
    (assetMap referenceMap indexMap : timePriceMap) (date : Time)
    : option (list float64 * float64) :=
  let weekday := WeekdayOf date in
  let '(currentIndexClose, exists_) := getClosestRecord date indexMap in
  if negb exists_ then None else
  let previousDate := AddDate date (-1) in
  let '(previousIndexClose, exists_) := getClosestRecord previousDate indexMap in
  if negb exists_ then None else
  currentAssetClose ← assetMap !! date;
  previousAssetClose ← assetMap !! previousDate;
  let nextCloseTimestamp := AddDate date 1 in
  if enableWeekdayFilter && negb (weekday =? weekdayFilter) then None else
  nextAssetClose ← assetMap !! nextCloseTimestamp;
  currentReferenceClose ← referenceMap !! date;
  previousReferenceClose ← referenceMap !! previousDate;
  let assetMomentum := getRateOfChange currentAssetClose previousAssetClose in
  let referenceMomentum :=
    if decide (symbol ≠ bitcoinSymbol)
    then getRateOfChange currentReferenceClose previousReferenceClose
    else Zero in
  let indexMomentum := getRateOfChange currentIndexClose previousIndexClose in
  let dailyFeatures := [] in
  let dailyFeatures :=
    if enableMomentum then dailyFeatures ++ [assetMomentum] else dailyFeatures in
  let dailyFeatures :=
    if enableReference then dailyFeatures ++ [referenceMomentum] else dailyFeatures in
  let dailyFeatures :=
    if enableIndex then dailyFeatures ++ [indexMomentum] else dailyFeatures in
  let dailyFeatures :=
    if enableWeekdays then appendWeekdays weekday dailyFeatures else dailyFeatures in
  let label := getRateOfChange nextAssetClose currentAssetClose in
  Some (dailyFeatures, label).

End V2.

(** The first revision ([main.go]): one example per record of the index,
    exact lookups only, and five weekday indicators. *)
Module V1.

Definition enableMomentum : bool := true.
Definition enableReference : bool := true.
Definition enableIndex : bool := true.
Definition enableWeekdays : bool := true.

Section Program.
Context {configuration : Configuration}.

(** The weekday indicators: [for j := 1; j < daysPerWeek - 1; j++]. *)
Definition appendWeekdays (weekday : Weekday) (dailyFeatures : list float64)
    : list float64 :=
  let weekdayIndex := Z.rem (weekday - 1) daysPerWeek in
  foldl (λ dailyFeatures j,
           let value := if decide (j = weekdayIndex) then One else Zero in
           dailyFeatures ++ [value])
        dailyFeatures (seqZ 1 (daysPerWeek - 1 - 1)).

(** The body of the loop over the index records up to the label: [None]
    is a [continue]. *)
Definition dailyExample (symbol : string) (assetMap referenceMap : timePriceMap)
    (currentIndexRecord previousIndexRecord : Record_)
    : option (list float64 * float64) :=
  if Before (Timestamp currentIndexRecord) StartDate
     || Before EndDate (Timestamp currentIndexRecord)
  then None else
  currentAssetClose ← assetMap !! Timestamp currentIndexRecord;
  previousAssetClose ← assetMap !! Timestamp previousIndexRecord;
  let nextCloseTimestamp := AddDate (Timestamp currentIndexRecord) 1 in
  nextAssetClose ← assetMap !! nextCloseTimestamp;
  currentReferenceClose ← referenceMap !! Timestamp currentIndexRecord;
  previousReferenceClose ← referenceMap !! Timestamp previousIndexRecord;
  let assetMomentum := getRateOfChange currentAssetClose previousAssetClose in
  let referenceMomentum :=
    if decide (symbol ≠ bitcoinSymbol)
    then getRateOfChange currentReferenceClose previousReferenceClose
    else Zero in
  let indexMomentum :=
    getRateOfChange (Close currentIndexRecord) (Close previousIndexRecord) in
  let dailyFeatures := [] in
  let dailyFeatures :=
    if enableMomentum then dailyFeatures ++ [assetMomentum] else dailyFeatures in
  let dailyFeatures :=
    if enableReference then dailyFeatures ++ [referenceMomentum] else dailyFeatures in
  let dailyFeatures :=
    if enableIndex then dailyFeatures ++ [indexMomentum] else dailyFeatures in
  let dailyFeatures :=
    if enableWeekdays then
      let weekday := WeekdayOf nextCloseTimestamp in
      appendWeekdays weekday dailyFeatures
    else dailyFeatures in
  let label := getRateOfChange nextAssetClose currentAssetClose in
  Some (dailyFeatures, label).

(** [for i := 1; i < len(indexRecords); i++] with the four slices as the
    loop state. *)
Definition forRecords (symbol : string) (assetMap referenceMap : timePriceMap)
    (indexRecords : list Record_) : outcome partitions :=
  forRange (λ i p,
      currentIndexRecord ← index indexRecords i;
      previousIndexRecord ← index indexRecords (i - 1);
      match dailyExample symbol assetMap referenceMap
              currentIndexRecord previousIndexRecord with
      | Some example => Done (routeExample (Timestamp currentIndexRecord) example p)
      | None => Done p
      end)
    1%nat (length indexRecords - 1)%nat noExamples.

(** The weekday columns of the header built by [analyzeData]. *)
Definition weekdays : list string :=
  ["Tuesday"; "Wednesday"; "Thursday"; "Friday"; "Saturday"].

(** The header row built by [analyzeData]. *)
Definition header : list string :=
  let header := ["Symbol"] in
  let header := if enableMomentum then header ++ ["Momentum"] else header in
  let header := if enableReference then header ++ ["BTC"] else header in
  let header := if enableIndex then header ++ [IndexSymbol] else header in
  let header := if enableWeekdays then header ++ weekdays else header in
  header ++ ["Intercept"; "IS R²"; "OOS R²"].

End Program.

End V1.

(** ** Sample data

    Concrete inputs on which the theorems of Part II are exercised. *)

Module Sample.

(** Midnight of the [n]-th day after the epoch; [at_ n h] is [h] hours
    into that day. *)
Definition day (n : Z) : Time := AddDate 0 n.
Definition at_ (n h : Z) : Time := day n + h * Hour.

(** Hourly bars of an asset: two session closes on day 100 (the later
    one wins), one on day 101, and bars at other hours. *)
Definition bars : list Record_ :=
  [ {| Timestamp := at_ 99 21; Close := f64 1 |};
    {| Timestamp := at_ 100 20; Close := f64 2 |};
    {| Timestamp := at_ 100 21; Close := f64 3 |};
    {| Timestamp := at_ 100 21; Close := f64 4 |};
    {| Timestamp := at_ 101 21; Close := f64 5 |};
    {| Timestamp := at_ 101 22; Close := f64 6 |} ].

(** Session closes of the asset on days 100 to 102, of the reference
    asset on days 100 and 101, and daily index bars on days 97 and 100:
    with the configuration below, day 101 is the only date with all its
    join keys. *)
Definition ethBars : list Record_ :=
  [ {| Timestamp := at_ 100 21; Close := f64 100 |};
    {| Timestamp := at_ 101 21; Close := f64 110 |};
    {| Timestamp := at_ 102 21; Close := f64 121 |} ].

Definition btcBars : list Record_ :=
  [ {| Timestamp := at_ 100 21; Close := f64 50 |};
    {| Timestamp := at_ 101 21; Close := f64 60 |} ].

Definition spxBars : list Record_ :=
  [ {| Timestamp := day 97; Close := f64 10 |};
    {| Timestamp := day 100; Close := f64 12 |} ].

#[export] Instance ohlc : Ohlc :=
  {| MustReadBarchart := λ _, spxBars;
     MustReadBinance := λ symbol,
       if decide (symbol = bitcoinSymbol) then btcBars
       else if decide (symbol = "ETHUSDT") then ethBars
       else bars |}.

#[export] Instance configuration : Configuration :=
  {| StartDate := day 101; SplitDate := day 103; EndDate := day 104;
     IndexSymbol := "SPX";
     EnableMomentum := true; EnableReference := true;
     EnableIndex := true; EnableWeekdays := true;
     EnableWeekdayFilter := false; WeekdayFilter := Tuesday;
     HoldingTime := 1;
     LongThreshold := (f64 1 / f64 100)%F;
     ShortThreshold := (- (f64 1 / f64 100))%F;
     RiskFreeRate := Zero;
     Assets := [ {| Asset.Symbol := "ETHUSDT"; Asset.StartDate := None |} ] |}.

(** Stand-ins for the statistics and the formatting of [commons] and
    [fmt]: the arithmetic mean, the population standard deviation, the
    first element for the median, and the format string for a formatted
    number. *)
Definition mean (xs : list float64) : float64 :=
  (foldl (λ sum x, sum + x) Zero xs / f64 (Z.of_nat (length xs)))%F.

Definition stdDev (xs : list float64) : float64 :=
  Sqrt (sumSquares ((λ x, x - mean xs)%F <$> xs) / f64 (Z.of_nat (length xs)))%F.

#[export] Instance commons : Commons :=
  {| Mean := mean; StdDev := stdDev;
     FormatPercentage := λ _ _, "%.2f%%";
     Median := λ xs, default NaN (head xs);
     Sprintf := λ format _, format;
     White := λ s, s; Green := λ s, s; Red := λ s, s |}.

(** A stand-in for [linear.LeastSquares]: the parameter vector, one
    entry per feature and one for the intercept; [Learn] fails on a model
    without feature weights and otherwise leaves the parameters at zero;
    [Predict] rejects a vector of the wrong length and otherwise returns
    the intercept plus the weighted features. *)
#[export] Instance linear : Linear (list float64) :=
  {| NewLeastSquares := λ _ _ _ _ trainingSet _,
       replicate (S (length (default [] (head trainingSet)))) Zero;
     Learn := λ model, match model with [] | [_] => None | _ => Some model end;
     Predict := λ model x,
       match model with
       | intercept :: weights =>
           if decide (length x = length weights)
           then Some [foldl (λ sum xw, sum + xw.1 * xw.2)%F intercept (zip x weights)]
           else None
       | [] => None
       end;
     Parameters := λ model, model |}.

Definition assetMap : timePriceMap := loadDailyRecords "ETHUSDT" None true false.
Definition referenceMap : timePriceMap := loadDailyRecords bitcoinSymbol None true false.
Definition indexMap : timePriceMap := loadDailyRecords IndexSymbol None false true.

(** The example of day 101. *)
Definition example101 : list float64 * float64 :=
  Eval vm_compute in
    default ([], NaN) (dailyExample "ETHUSDT" assetMap referenceMap indexMap (day 101)).

(** A configuration whose date range is empty: it ends before it starts. *)
Definition reversedRange : Configuration :=
  {| StartDate := day 104; SplitDate := day 103; EndDate := day 101;
     IndexSymbol := "SPX";
     EnableMomentum := true; EnableReference := true;
     EnableIndex := true; EnableWeekdays := true;
     EnableWeekdayFilter := false; WeekdayFilter := Tuesday;
     HoldingTime := 1;
     LongThreshold := (f64 1 / f64 100)%F;
     ShortThreshold := (- (f64 1 / f64 100))%F;
     RiskFreeRate := Zero;
     Assets := [] |}.

End Sample.

(* ===================================================================== *)
(** * Part II: the specification, claim by claim *)
(* ===================================================================== *)

(** ** Calendar arithmetic *)

Lemma nsPerDay_pos : 0 < nsPerDay.
Proof. reflexivity. Qed.

Lemma AddDate_0 t : AddDate t 0 = t.
Proof. unfold AddDate. lia. Qed.

Lemma AddDate_AddDate t a b : AddDate (AddDate t a) b = AddDate t (a + b).
Proof. unfold AddDate. lia. Qed.

Lemma AddDate_le t a b : a ≤ b → AddDate t a ≤ AddDate t b.
Proof. unfold AddDate. pose proof nsPerDay_pos. nia. Qed.

(** ** Closest-prior lookup *)

Section ClosestRecord.
Implicit Types (indexMap : timePriceMap) (date : Time) (close : float64).

(** The loop returns the first hit among the offsets [0, -1, ..., -(n-1)]. *)
Lemma getClosestRecordLoop_first_hit n indexMap date j close :
  0 ≤ j < Z.of_nat n →
  (∀ k, 0 ≤ k < j → indexMap !! AddDate date (- k) = None) →
  indexMap !! AddDate date (- j) = Some close →
  getClosestRecordLoop n date indexMap = (AddDate date (- j), close, true).
Proof.
  revert date j. induction n as [|n IH]; intros date j Hj Hmiss Hhit; [lia|].
  destruct (decide (j = 0)) as [->|Hne].
  - change (- 0) with 0 in *. rewrite AddDate_0 in *. simpl. by rewrite Hhit.
  - simpl. pose proof (Hmiss 0 ltac:(lia)) as H0.
    change (- 0) with 0 in H0. rewrite AddDate_0 in H0. rewrite H0.
    replace (AddDate date (- j)) with (AddDate (AddDate date (-1)) (- (j - 1)))
      by (rewrite AddDate_AddDate; f_equal; lia).
    apply IH; [lia| |].
    + intros k Hk. rewrite AddDate_AddDate.
      replace (-1 + - k) with (- (k + 1)) by lia. apply Hmiss. lia.
    + rewrite AddDate_AddDate. by replace (-1 + - (j - 1)) with (- j) by lia.
Qed.

Lemma getClosestRecordLoop_no_hit n indexMap date :
  (∀ k, 0 ≤ k < Z.of_nat n → indexMap !! AddDate date (- k) = None) →
  getClosestRecordLoop n date indexMap = (zeroTime, NaN, false).
Proof.
  revert date. induction n as [|n IH]; intros date Hmiss; [done|].
  simpl. pose proof (Hmiss 0 ltac:(lia)) as H0.
  change (- 0) with 0 in H0. rewrite AddDate_0 in H0. rewrite H0.
  apply IH. intros k Hk. rewrite AddDate_AddDate.
  replace (-1 + - k) with (- (k + 1)) by lia. apply Hmiss. lia.
Qed.

(** Whatever the loop reports as found is an entry of the series, at
    most [n - 1] days before the target. *)
Lemma getClosestRecordLoop_found n indexMap date found close :
  getClosestRecordLoop n date indexMap = (found, close, true) →
  indexMap !! found = Some close ∧
  ∃ j, 0 ≤ j < Z.of_nat n ∧ found = AddDate date (- j) ∧
       ∀ k, 0 ≤ k < j → indexMap !! AddDate date (- k) = None.
Proof.
  revert date. induction n as [|n IH]; intros date; simpl; [done|].
  destruct (indexMap !! date) as [c|] eqn:Hd.
  - intros [= <- <-]. split; [done|]. exists 0.
    rewrite AddDate_0. split; [lia|]. split; [done|]. intros; lia.
  - intros Hrec. destruct (IH _ Hrec) as (Hf & j & Hj & -> & Hmiss).
    split; [done|]. exists (j + 1). split; [lia|]. split.
    + rewrite AddDate_AddDate. f_equal. lia.
    + intros k Hk. destruct (decide (k = 0)) as [->|].
      * by rewrite AddDate_0.
      * replace (- k) with (-1 + - (k - 1)) by lia.
        rewrite <- AddDate_AddDate. apply Hmiss. lia.
Qed.

(** A query [j ≤ 9] days after an entry, with nothing in between. *)
Lemma getClosestRecord_from indexMap D j close :
  indexMap !! D = Some close →
  0 ≤ j ≤ 9 →
  (∀ k, 1 ≤ k ≤ j → indexMap !! AddDate D k = None) →
  getClosestRecord (AddDate D j) indexMap = (D, close, true).
Proof.
  intros Hhit Hj Hgap.
  assert (AddDate (AddDate D j) (- j) = D) as Hback
    by (unfold AddDate; lia).
  rewrite <- Hback at 2.
  apply getClosestRecordLoop_first_hit; [lia| |by rewrite Hback].
  intros k Hk.
  replace (AddDate (AddDate D j) (- k)) with (AddDate D (j - k))
    by (unfold AddDate; lia).
  apply Hgap. lia.
Qed.

(** C1. The closest-prior lookup returns the price at the exact target
    date when the series has one; otherwise it walks back one calendar
    day at a time and returns the first price it meets together with the
    date at which it met it, looking at the target and the nine days
    before it.  In particular, when the series has a price at [D] and
    none at [D+1 .. D+9], every query in [(D, D+9]] returns the price at
    [D] and reports [D]; when the ten dates [date, date-1, ..., date-9]
    all miss, the lookup reports not-found, with the zero time and NaN
    in place of a date and a price; and a reported hit is always an
    entry of the series. *)
Theorem getClosestRecord_closest_prior indexMap :
  (∀ date close,
      indexMap !! date = Some close →
      getClosestRecord date indexMap = (date, close, true)) ∧
  (∀ date j close,
      0 ≤ j ≤ 9 →
      (∀ k, 0 ≤ k < j → indexMap !! AddDate date (- k) = None) →
      indexMap !! AddDate date (- j) = Some close →
      getClosestRecord date indexMap = (AddDate date (- j), close, true)) ∧
  (∀ D j close,
      indexMap !! D = Some close →
      (∀ k, 1 ≤ k ≤ 9 → indexMap !! AddDate D k = None) →
      1 ≤ j ≤ 9 →
      getClosestRecord (AddDate D j) indexMap = (D, close, true)) ∧
  (∀ date,
      (∀ k, 0 ≤ k ≤ 9 → indexMap !! AddDate date (- k) = None) →
      getClosestRecord date indexMap = (zeroTime, NaN, false)) ∧
  (∀ date found close,
      getClosestRecord date indexMap = (found, close, true) →
      indexMap !! found = Some close ∧ AddDate date (-9) ≤ found ≤ date).
Proof.
  unfold getClosestRecord. repeat split.
  - intros date close Hhit.
    rewrite <- (AddDate_0 date) at 2. change 0 with (- 0).
    apply getClosestRecordLoop_first_hit; [lia|intros; lia|].
    by rewrite AddDate_0.
  - intros date j close Hj Hmiss Hhit.
    apply getClosestRecordLoop_first_hit; [lia|done..].
  - intros D j close Hhit Hgap Hj.
    replace D with (AddDate (AddDate D j) (- j)) at 2
      by (rewrite AddDate_AddDate, Z.add_opp_diag_r; apply AddDate_0).
    apply getClosestRecordLoop_first_hit; [lia| |].
    + intros k Hk. rewrite AddDate_AddDate. apply Hgap. lia.
    + by rewrite AddDate_AddDate, Z.add_opp_diag_r, AddDate_0.
  - intros date Hmiss. apply getClosestRecordLoop_no_hit.
    intros k Hk. apply Hmiss. lia.
  - by apply getClosestRecordLoop_found in H as [? _].
  - apply getClosestRecordLoop_found in H as (_ & j & Hj & -> & _).
    apply AddDate_le. lia.
  - apply getClosestRecordLoop_found in H as (_ & j & Hj & -> & _).
    rewrite <- (AddDate_0 date) at 2. apply AddDate_le. lia.
Qed.

End ClosestRecord.

(** The boundary of the lookback on a series with one entry, at day 100:
    day 109 still reaches it, day 110 does not. *)
Example getClosestRecord_day_109 :
  getClosestRecord (Sample.day 109) {[Sample.day 100 := f64 7]}
  = (Sample.day 100, f64 7, true).
Proof. vm_compute. reflexivity. Qed.

Example getClosestRecord_day_110 :
  getClosestRecord (Sample.day 110) {[Sample.day 100 := f64 7]}
  = (zeroTime, NaN, false).
Proof. vm_compute. reflexivity. Qed.

Lemma getClosestRecord_closest_prior_witness :
  getClosestRecord (AddDate (Sample.day 100) 9) {[Sample.day 100 := f64 7]}
  = (Sample.day 100, f64 7, true).
Proof.
  apply (proj1 (proj2 (proj2 (getClosestRecord_closest_prior _)))).
  - apply lookup_singleton_eq.
  - intros k Hk. apply lookup_singleton_ne.
    unfold AddDate, Sample.day, nsPerDay, Hour, Second, Nanosecond. lia.
  - lia.
Defined.

(** ** Price series construction *)

Section PriceSeries.
Context {ohlc : Ohlc}.
Implicit Types (records : list Record_) (startDate : option Time).

Lemma GetDate_idemp t : GetDate (GetDate t) = GetDate t.
Proof.
  unfold GetDate. pose proof nsPerDay_pos.
  replace ((t - t `mod` nsPerDay) `mod` nsPerDay) with 0; [lia|].
  symmetry. apply Z.mod_divide; [lia|].
  exists (t `div` nsPerDay). pose proof (Z.div_mod t nsPerDay). lia.
Qed.

(** In collapse mode a record either overwrites the entry of its
    calendar date, when it is retained, or leaves the series alone. *)
Lemma loadDailyRecord_collapse startDate output record :
  loadDailyRecord startDate true output record =
  if retained startDate record
  then <[GetDate (Timestamp record) := Close record]> output
  else output.
Proof.
  unfold loadDailyRecord, retained.
  destruct (match startDate with Some _ => _ | None => _ end); [done|].
  simpl. by case_decide; [rewrite bool_decide_eq_true_2|rewrite bool_decide_eq_false_2].
Qed.

(** The stored price of a date is the close of the last retained record
    of that date. *)
Lemma lookup_collapse startDate records date :
  foldl (loadDailyRecord startDate true) ∅ records !! date =
  Close <$> last (filter (λ r, retained startDate r ∧ GetDate (Timestamp r) = date) records).
Proof.
  induction records as [|record records IH] using rev_ind; [done|].
  rewrite foldl_snoc, filter_app, loadDailyRecord_collapse.
  rewrite filter_cons, filter_nil.
  case_decide as Hkeep.
  - destruct Hkeep as [Hret <-]. apply Is_true_true in Hret.
    by rewrite Hret, lookup_insert_eq, last_snoc.
  - rewrite app_nil_r. destruct (retained startDate record) eqn:Hret; [|done].
    rewrite lookup_insert_ne; [done|]. intros Heq. by apply Hkeep.
Qed.

(** Every key of a collapsed series is a calendar date. *)
Lemma collapse_key_is_date startDate records date close :
  foldl (loadDailyRecord startDate true) ∅ records !! date = Some close →
  GetDate date = date.
Proof.
  rewrite lookup_collapse. intros Hlast.
  apply fmap_Some in Hlast as (r & Hr & _).
  apply last_Some_elem_of, list_elem_of_filter in Hr as [[_ <-] _].
  apply GetDate_idemp.
Qed.

Lemma collapse_drops_early start records :
  foldl (loadDailyRecord (Some start) true) ∅ records =
  foldl (loadDailyRecord None true) ∅
    (filter (λ r, ¬ Before (Timestamp r) start) records).
Proof.
  induction records as [|record records IH] using rev_ind; [done|].
  rewrite filter_app, filter_cons, filter_nil, foldl_snoc, IH.
  rewrite !loadDailyRecord_collapse. unfold retained.
  case_decide as Hkeep.
  - rewrite foldl_snoc, loadDailyRecord_collapse. unfold retained.
    by destruct (Before (Timestamp record) start).
  - rewrite app_nil_r. by destruct (Before (Timestamp record) start).
Qed.

(** C8. In session-close collapse mode, whatever the records read:
    (1) every retained observation is the close of an input record
    stamped 21:00, on the calendar date that keys it, and not before the
    optional start date; (2) no two observations of the series share a
    calendar date; (3) the series is the one built from the input with
    the records before the start date removed; (4) the price stored for
    a date is the close of the last record, in input order, that is
    retained and falls on that date. *)
Theorem loadDailyRecords_collapse (symbol : string) startDate (barchart : bool) :
  let records :=
    if barchart then MustReadBarchart symbol else MustReadBinance symbol in
  let output := loadDailyRecords symbol startDate true barchart in
  (∀ date close,
      output !! date = Some close →
      ∃ record, record ∈ records ∧
        GetTimeOfDay (Timestamp record) = 21 * Hour ∧
        GetDate (Timestamp record) = date ∧
        Close record = close ∧
        ∀ start, startDate = Some start → ¬ Timestamp record < start) ∧
  NoDup (GetDate <$> (map_to_list output).*1) ∧
  (∀ start, startDate = Some start →
      output = foldl (loadDailyRecord None true) ∅
                 (filter (λ r, ¬ Timestamp r < start) records)) ∧
  (∀ date,
      output !! date =
      Close <$> last (filter (λ r, retained startDate r ∧
                                   GetDate (Timestamp r) = date) records)).
Proof.
  intros records output. unfold loadDailyRecords in output.
  fold records in output. repeat split.
  - intros date close Hout. subst output. rewrite lookup_collapse in Hout.
    apply fmap_Some in Hout as (r & Hr & ->).
    apply last_Some_elem_of, list_elem_of_filter in Hr as [[Hret Hdate] Hin].
    exists r. repeat split; try done.
    + unfold retained in Hret.
      apply Is_true_true, andb_true_iff in Hret as [_ Hret].
      by apply bool_decide_eq_true in Hret.
    + intros start -> Hlt. unfold retained in Hret.
      apply Is_true_true, andb_true_iff in Hret as [Hret _].
      apply negb_true_iff in Hret. unfold Before in Hret.
      apply Z.ltb_ge in Hret. lia.
  - assert (Hid : GetDate <$> (map_to_list output).*1 = (map_to_list output).*1).
    { rewrite <- (list_fmap_id ((map_to_list output).*1)) at 2.
      apply list_fmap_ext. intros i date Hi.
      apply list_elem_of_lookup_2, list_elem_of_fmap in Hi as ([d c] & -> & Hi).
      apply elem_of_map_to_list in Hi. simpl.
      by eapply collapse_key_is_date. }
    rewrite Hid. apply NoDup_fst_map_to_list.
  - intros start ->. subst output. rewrite collapse_drops_early.
    f_equal. apply list_filter_iff. intros r. unfold Before.
    by rewrite Is_true_true, Z.ltb_lt.
  - intros date. apply lookup_collapse.
Qed.

End PriceSeries.

Lemma loadDailyRecords_collapse_witness :
  let output :=
    loadDailyRecords (ohlc:=Sample.ohlc) "SOLUSDT" (Some (Sample.day 100)) true false in
  output !! Sample.day 100 = Some (f64 4) ∧
  ∃ record, record ∈ Sample.bars ∧
    GetTimeOfDay (Timestamp record) = 21 * Hour ∧
    GetDate (Timestamp record) = Sample.day 100 ∧
    Close record = f64 4 ∧
    ∀ start, Some (Sample.day 100) = Some start → ¬ Timestamp record < start.
Proof.
  intros output.
  assert (Hout : output !! Sample.day 100 = Some (f64 4)) by (vm_compute; reflexivity).
  split; [exact Hout|].
  exact (proj1 (loadDailyRecords_collapse (ohlc:=Sample.ohlc) "SOLUSDT"
                  (Some (Sample.day 100)) false) _ _ Hout).
Defined.

(** ** Feature and label construction *)

Section Features.
Context {configuration : Configuration}.
Implicit Types (symbol : string) (assetMap referenceMap indexMap : timePriceMap).
Implicit Types (date : Time) (p : partitions).

Lemma WeekdayOf_range date : 0 ≤ WeekdayOf date < 7.
Proof. unfold WeekdayOf. apply Z.mod_pos_bound. lia. Qed.

(** *** The weekday indicators *)

Lemma appendWeekdays_oneHot weekday (dailyFeatures : list float64) :
  0 ≤ weekday < 7 →
  appendWeekdays weekday dailyFeatures =
  dailyFeatures ++ oneHot ((weekday + 6) `mod` 7).
Proof.
  intros Hw. unfold appendWeekdays, oneHot, daysPerWeek.
  rewrite Z.rem_mod_nonneg by lia.
  generalize ((weekday + 6) `mod` 7). intros idx.
  generalize (seqZ 0 7). intros js. revert dailyFeatures.
  induction js as [|j js IH]; intros fs; simpl.
  - by rewrite app_nil_r.
  - rewrite IH, <- app_assoc. done.
Qed.

Lemma oneHot_length idx : length (oneHot idx) = 7%nat.
Proof. unfold oneHot. by rewrite length_fmap, length_seqZ. Qed.

Lemma oneHot_lookup idx j :
  0 ≤ j < 7 →
  oneHot idx !! Z.to_nat j = Some (if decide (j = idx) then One else Zero).
Proof.
  intros Hj. unfold oneHot, daysPerWeek. rewrite list_lookup_fmap.
  rewrite (lookup_seqZ_lt 0 7 (Z.to_nat j)) by lia. simpl.
  by rewrite Z2Nat.id by lia.
Qed.

Lemma oneHot_single idx :
  0 ≤ idx < 7 →
  length (filter (λ value, value = One) (oneHot idx)) = 1%nat ∧
  length (filter (λ value, value = Zero) (oneHot idx)) = 6%nat.
Proof.
  intros Hidx.
  assert (idx = 0 ∨ idx = 1 ∨ idx = 2 ∨ idx = 3 ∨ idx = 4 ∨ idx = 5 ∨ idx = 6)
    as Hcases by lia.
  destruct Hcases as [->|[->|[->|[->|[->|[->| ->]]]]]]; by vm_compute.
Qed.

(** *** One date of the loop *)

(** The scalar features of an example, in the order the program appends
    them. *)
Lemma dailyExample_Some symbol assetMap referenceMap indexMap date features label :
  dailyExample symbol assetMap referenceMap indexMap date = Some (features, label) →
  ∃ found currentIndexClose previousFound previousIndexClose
    currentAssetClose previousAssetClose nextAssetClose
    currentReferenceClose previousReferenceClose,
    (EnableWeekdayFilter = true → WeekdayOf date = WeekdayFilter) ∧
    getClosestRecord date indexMap = (found, currentIndexClose, true) ∧
    getClosestRecord (AddDate found (-1)) indexMap
      = (previousFound, previousIndexClose, true) ∧
    assetMap !! date = Some currentAssetClose ∧
    assetMap !! AddDate date (-1) = Some previousAssetClose ∧
    assetMap !! AddDate date HoldingTime = Some nextAssetClose ∧
    referenceMap !! date = Some currentReferenceClose ∧
    referenceMap !! AddDate date (-1) = Some previousReferenceClose ∧
    features =
      (if EnableMomentum
       then [getRateOfChange currentAssetClose previousAssetClose] else []) ++
      (if EnableReference
       then [if decide (symbol ≠ bitcoinSymbol)
             then getRateOfChange currentReferenceClose previousReferenceClose
             else Zero]
       else []) ++
      (if EnableIndex
       then [getRateOfChange currentIndexClose previousIndexClose] else []) ++
      (if EnableWeekdays then oneHot ((WeekdayOf date + 6) `mod` 7) else []) ∧
    label = getRateOfChange nextAssetClose currentAssetClose.
Proof.
  unfold dailyExample.
  destruct (EnableWeekdayFilter && negb (WeekdayOf date =? WeekdayFilter)) eqn:Hfilter;
    [done|].
  destruct (getClosestRecord date indexMap) as [[found cur] ok] eqn:Hcur.
  destruct ok; simpl; [|done].
  destruct (getClosestRecord (AddDate found (-1)) indexMap)
    as [[pfound prev] ok] eqn:Hprev.
  destruct ok; simpl; [|done].
  destruct (assetMap !! date) as [ca|] eqn:Hca; simpl; [|done].
  destruct (assetMap !! AddDate date (-1)) as [pa|] eqn:Hpa; simpl; [|done].
  destruct (assetMap !! AddDate date HoldingTime) as [na|] eqn:Hna; simpl; [|done].
  destruct (referenceMap !! date) as [cr|] eqn:Hcr; simpl; [|done].
  destruct (referenceMap !! AddDate date (-1)) as [pr|] eqn:Hpr; simpl; [|done].
  intros [= <- <-].
  exists found, cur, pfound, prev, ca, pa, na, cr, pr.
  repeat split; try done.
  - intros Hon. rewrite Hon in Hfilter. simpl in Hfilter.
    apply negb_false_iff, Z.eqb_eq in Hfilter. done.
  - pose proof (WeekdayOf_range date).
    destruct EnableMomentum, EnableReference, EnableIndex, EnableWeekdays;
      simpl; rewrite ?appendWeekdays_oneHot by done; done.
Qed.

(** C7. With weekday features enabled, the feature vector of a date that
    is not skipped is, in this order: the asset momentum, the reference
    momentum and the index momentum, each present when its flag is set,
    then a one-hot weekday vector of length 7.  The vector has 1.0 in the
    slot [(weekday + 6) mod 7] and 0.0 in the six others, and that slot
    is 0 exactly on Mondays. *)
Theorem dailyExample_feature_vector
    symbol assetMap referenceMap indexMap date features label :
  EnableWeekdays = true →
  dailyExample symbol assetMap referenceMap indexMap date = Some (features, label) →
  let weekdayIndex := (WeekdayOf date + 6) `mod` 7 in
  ∃ assetMomentum referenceMomentum indexMomentum,
    features =
      (if EnableMomentum then [assetMomentum] else []) ++
      (if EnableReference then [referenceMomentum] else []) ++
      (if EnableIndex then [indexMomentum] else []) ++
      oneHot weekdayIndex ∧
    (∃ current previous,
        assetMap !! date = Some current ∧
        assetMap !! AddDate date (-1) = Some previous ∧
        assetMomentum = getRateOfChange current previous) ∧
    (∃ current previous,
        referenceMap !! date = Some current ∧
        referenceMap !! AddDate date (-1) = Some previous ∧
        referenceMomentum =
          if decide (symbol ≠ bitcoinSymbol)
          then getRateOfChange current previous else Zero) ∧
    (∃ found current previousFound previous,
        getClosestRecord date indexMap = (found, current, true) ∧
        getClosestRecord (AddDate found (-1)) indexMap
          = (previousFound, previous, true) ∧
        indexMomentum = getRateOfChange current previous) ∧
    length (oneHot weekdayIndex) = 7%nat ∧
    0 ≤ weekdayIndex < 7 ∧
    (∀ j, 0 ≤ j < 7 →
        oneHot weekdayIndex !! Z.to_nat j
        = Some (if decide (j = weekdayIndex) then One else Zero)) ∧
    length (filter (λ value, value = One) (oneHot weekdayIndex)) = 1%nat ∧
    length (filter (λ value, value = Zero) (oneHot weekdayIndex)) = 6%nat ∧
    (weekdayIndex = 0 ↔ WeekdayOf date = Monday).
Proof.
  intros Hweek Hex weekdayIndex.
  apply dailyExample_Some in Hex
    as (found & ci & pfound & pi & ca & pa & na & cr & pr &
        _ & Hci & Hpi & Hca & Hpa & _ & Hcr & Hpr & -> & _).
  rewrite Hweek.
  assert (0 ≤ weekdayIndex < 7) as Hidx by (apply Z.mod_pos_bound; lia).
  eexists _, _, _. split; [reflexivity|].
  split; [by exists ca, pa|]. split; [by exists cr, pr|].
  split; [by exists found, ci, pfound, pi|].
  split; [apply oneHot_length|]. split; [done|].
  split; [apply oneHot_lookup|].
  split; [by apply oneHot_single|]. split; [by apply oneHot_single|].
  pose proof (WeekdayOf_range date) as Hw.
  subst weekdayIndex. unfold Monday. split.
  - intros H0. apply Z.mod_divide in H0 as [q Hq]; lia.
  - intros ->. done.
Qed.

(** C6. The prior index close of an example is looked up from the date
    at which the current index close was found, minus one day; the index
    momentum of the example is the rate of change between the two.  So
    across a gap the lookups chain: when the index has closes at [A] and
    [B = A + g] days with nothing in between and nothing after [B] up to
    the date processed, the current close is the one of [B] and the
    prior close the one of [A], whereas a lookup from the processed date
    minus one day would have returned the close of [B] again. *)
Theorem dailyExample_index_anchor indexMap :
  (∀ symbol assetMap referenceMap date features label,
      dailyExample symbol assetMap referenceMap indexMap date = Some (features, label) →
      ∃ found current previousFound previous,
        getClosestRecord date indexMap = (found, current, true) ∧
        getClosestRecord (AddDate found (-1)) indexMap
          = (previousFound, previous, true) ∧
        (EnableIndex = true →
         features !! ((if EnableMomentum then 1 else 0) +
                      (if EnableReference then 1 else 0))%nat
         = Some (getRateOfChange current previous))) ∧
  (∀ A B a b g j,
      indexMap !! A = Some a →
      indexMap !! B = Some b →
      B = AddDate A g → 1 ≤ g ≤ 10 →
      (∀ k, 1 ≤ k < g → indexMap !! AddDate A k = None) →
      0 ≤ j ≤ 9 →
      (∀ k, 1 ≤ k ≤ j → indexMap !! AddDate B k = None) →
      getClosestRecord (AddDate B j) indexMap = (B, b, true) ∧
      getClosestRecord (AddDate B (-1)) indexMap = (A, a, true) ∧
      (1 ≤ j →
       getClosestRecord (AddDate (AddDate B j) (-1)) indexMap = (B, b, true))).
Proof.
  split.
  - intros symbol assetMap referenceMap date features label Hex.
    apply dailyExample_Some in Hex
      as (found & ci & pfound & pi & ca & pa & na & cr & pr &
          _ & Hci & Hpi & _ & _ & _ & _ & _ & -> & _).
    exists found, ci, pfound, pi. split; [done|]. split; [done|].
    intros ->. by destruct EnableMomentum, EnableReference.
  - intros A B a b g j HA HB -> Hg Hgap Hj Hafter.
    split; [|split].
    + by apply getClosestRecord_from.
    + replace (AddDate (AddDate A g) (-1)) with (AddDate A (g - 1))
        by (unfold AddDate; lia).
      apply getClosestRecord_from; [done|lia|].
      intros k Hk. apply Hgap. lia.
    + intros Hj1.
      replace (AddDate (AddDate (AddDate A g) j) (-1))
        with (AddDate (AddDate A g) (j - 1)) by (unfold AddDate; lia).
      apply getClosestRecord_from; [done|lia|].
      intros k Hk. apply Hafter. lia.
Qed.

(** *** The date loop *)

Lemma forDates_step symbol assetMap referenceMap indexMap date p :
  forDates symbol assetMap referenceMap indexMap date p =
  if Before date EndDate
  then forDates symbol assetMap referenceMap indexMap (AddDate date 1)
         (dateStep symbol assetMap referenceMap indexMap date p)
  else p.
Proof.
  rewrite (forDates_equation_1 symbol assetMap referenceMap indexMap date p).
  destruct (decide (Is_true (Before date EndDate))) as [Hb|Hb]; simpl;
    by destruct (Before date EndDate).
Qed.

Lemma dates_unfold start stop :
  dates start stop =
  if Before start stop then start :: dates (AddDate start 1) stop else [].
Proof.
  unfold dates, Before. pose proof nsPerDay_pos as Hpos.
  destruct (Z.ltb_spec start stop) as [Hlt|Hge].
  - set (n := (stop - start + nsPerDay - 1) `div` nsPerDay).
    assert ((stop - AddDate start 1 + nsPerDay - 1) `div` nsPerDay = n - 1) as ->.
    { unfold n, AddDate.
      replace (stop - start + nsPerDay - 1)
        with (stop - (start + 1 * nsPerDay) + nsPerDay - 1 + 1 * nsPerDay) by lia.
      rewrite Z.div_add by lia. lia. }
    assert (0 < n) as Hn.
    { unfold n. apply Z.div_str_pos. lia. }
    rewrite seqZ_cons by done. simpl. rewrite AddDate_0. f_equal.
    replace (Z.succ 0) with (1 + 0) by lia.
    rewrite <- fmap_add_seqZ, <- list_fmap_compose. unfold Z.pred.
    replace (n + -1) with (n - 1) by lia.
    apply list_fmap_ext. intros i k _. simpl. by rewrite AddDate_AddDate.
  - rewrite seqZ_nil; [done|].
    apply Z.lt_succ_r, Z.div_lt_upper_bound; lia.
Qed.

(** The loop visits the dates of [dates date EndDate], in order. *)
Lemma forDates_foldl symbol assetMap referenceMap indexMap date p :
  forDates symbol assetMap referenceMap indexMap date p =
  foldl (λ p date, dateStep symbol assetMap referenceMap indexMap date p)
        p (dates date EndDate).
Proof.
  remember (Z.to_nat (EndDate - date + nsPerDay)) as n eqn:Hn.
  revert date p Hn. induction n as [n IH] using lt_wf_ind. intros date p ->.
  rewrite forDates_step, dates_unfold.
  destruct (Before date EndDate) eqn:Hb; [|done]. simpl.
  eapply IH; [|reflexivity].
  apply Z.ltb_lt in Hb. unfold AddDate. pose proof nsPerDay_pos. lia.
Qed.

Lemma elem_of_dates start stop date :
  date ∈ dates start stop ↔
  ∃ k, 0 ≤ k ∧ date = AddDate start k ∧ date < stop.
Proof.
  unfold dates. pose proof nsPerDay_pos as Hpos. rewrite list_elem_of_fmap.
  set (n := (stop - start + nsPerDay - 1) `div` nsPerDay).
  assert (∀ k, k < n ↔ AddDate start k < stop) as Hk.
  { intros k. unfold n, AddDate. split; intros H.
    - assert (k + 1 ≤ (stop - start + nsPerDay - 1) `div` nsPerDay) as H' by lia.
      apply (Z.mul_le_mono_nonneg_l _ _ nsPerDay) in H'; [|lia].
      pose proof (Z.mul_div_le (stop - start + nsPerDay - 1) nsPerDay). lia.
    - assert (k + 1 ≤ (stop - start + nsPerDay - 1) `div` nsPerDay); [|lia].
      apply Z.div_le_lower_bound; lia. }
  split.
  - intros (k & -> & Hin). apply elem_of_seqZ in Hin.
    exists k. split; [lia|]. split; [done|]. apply Hk. lia.
  - intros (k & Hk0 & -> & Hlt). exists k. split; [done|].
    apply elem_of_seqZ. apply Hk in Hlt. lia.
Qed.

(** What the loop appends to each of the four slices. *)
Lemma foldl_dateStep symbol assetMap referenceMap indexMap (days : list Time) p :
  let example := dailyExample symbol assetMap referenceMap indexMap in
  let q := foldl (λ p date, dateStep symbol assetMap referenceMap indexMap date p)
                 p days in
  let trainingDays := filter (λ date, date < SplitDate) days in
  let testDays := filter (λ date, SplitDate ≤ date) days in
  trainingFeatures q = trainingFeatures p ++ (omap example trainingDays).*1 ∧
  trainingLabels q = trainingLabels p ++ (omap example trainingDays).*2 ∧
  testFeatures q = testFeatures p ++ (omap example testDays).*1 ∧
  testLabels q = testLabels p ++ (omap example testDays).*2.
Proof.
  revert p. induction days as [|date days IH]; intros p; simpl.
  - by rewrite !app_nil_r.
  - destruct (IH (dateStep symbol assetMap referenceMap indexMap date p))
      as (-> & -> & -> & ->).
    rewrite !filter_cons. unfold dateStep, routeExample, Before.
    destruct (dailyExample symbol assetMap referenceMap indexMap date)
      as [[features label]|] eqn:Hex.
    + destruct (Z.ltb_spec date SplitDate).
      * rewrite decide_True, decide_False by lia. simpl. rewrite Hex. simpl.
        by rewrite <- !app_assoc.
      * rewrite decide_False, decide_True by lia. simpl. rewrite Hex. simpl.
        by rewrite <- !app_assoc.
    + destruct (decide (date < SplitDate)), (decide (SplitDate ≤ date));
        simpl; rewrite ?Hex; done.
Qed.

(** C4. The loop of [getRegressionCells] visits the dates [StartDate],
    [StartDate] + 1 day, ... that lie before [EndDate].  The training
    partition holds, in date order, the examples of the visited dates
    strictly before [SplitDate]; the test partition holds those of the
    visited dates on or after [SplitDate] (all of them before
    [EndDate]); features and labels stay aligned; no date contributes to
    both partitions, and none outside [[StartDate, EndDate)] to any. *)
Theorem getRegressionCells_partition_routing
    symbol assetMap referenceMap indexMap :
  let p := forDates symbol assetMap referenceMap indexMap StartDate noExamples in
  let example := dailyExample symbol assetMap referenceMap indexMap in
  let days := dates StartDate EndDate in
  let trainingDays := filter (λ date, date < SplitDate) days in
  let testDays := filter (λ date, SplitDate ≤ date) days in
  trainingFeatures p = (omap example trainingDays).*1 ∧
  trainingLabels p = (omap example trainingDays).*2 ∧
  testFeatures p = (omap example testDays).*1 ∧
  testLabels p = (omap example testDays).*2 ∧
  (∀ date, date ∈ days ↔
           ∃ k, 0 ≤ k ∧ date = AddDate StartDate k ∧ date < EndDate) ∧
  (∀ date, date ∈ trainingDays ↔ date ∈ days ∧ date < SplitDate) ∧
  (∀ date, date ∈ testDays ↔ date ∈ days ∧ SplitDate ≤ date < EndDate) ∧
  (∀ date, ¬ (date ∈ trainingDays ∧ date ∈ testDays)) ∧
  (∀ date, date ∈ trainingDays ∨ date ∈ testDays →
           StartDate ≤ date < EndDate) ∧
  (length (trainingFeatures p) + length (testFeatures p) =
   length (omap example days))%nat.
Proof.
  intros p example days trainingDays testDays.
  assert (∀ date, date ∈ days → StartDate ≤ date < EndDate) as Hrange.
  { intros date (k & Hk & -> & Hlt)%elem_of_dates. split; [|done].
    rewrite <- (AddDate_0 StartDate) at 1. by apply AddDate_le. }
  destruct (foldl_dateStep symbol assetMap referenceMap indexMap days noExamples)
    as (Htf & Htl & Hsf & Hsl).
  subst p. rewrite forDates_foldl. fold days.
  rewrite Htf, Htl, Hsf, Hsl. simpl.
  do 4 (split; [done|]).
  split; [intros date; apply elem_of_dates|].
  split.
  { intros date. unfold trainingDays. rewrite list_elem_of_filter. tauto. }
  split.
  { intros date. unfold testDays. rewrite list_elem_of_filter.
    split; [|tauto]. intros [Hge Hin]. split; [done|]. split; [done|].
    by apply Hrange. }
  split.
  { intros date [[Hlt _]%list_elem_of_filter [Hge _]%list_elem_of_filter]. lia. }
  split.
  { intros date [[_ ?]%list_elem_of_filter|[_ ?]%list_elem_of_filter];
      by apply Hrange. }
  rewrite !length_fmap. fold example trainingDays testDays.
  subst trainingDays testDays. clear. induction days as [|date days IH]; [done|].
  rewrite !filter_cons. simpl.
  destruct (decide (date < SplitDate)), (decide (SplitDate ≤ date));
    try lia; simpl; destruct (example date); unfold omap in *; simpl; lia.
Qed.

End Features.

Lemma dailyExample_feature_vector_witness :
  EnableWeekdays (Configuration:=Sample.configuration) = true ∧
  dailyExample (configuration:=Sample.configuration) "ETHUSDT" Sample.assetMap Sample.referenceMap Sample.indexMap
    (Sample.day 101) = Some Sample.example101 ∧
  ∃ assetMomentum referenceMomentum indexMomentum,
    Sample.example101.1 =
      [assetMomentum; referenceMomentum; indexMomentum] ++
      [Zero; Zero; Zero; Zero; Zero; Zero; One].
Proof.
  assert (dailyExample (configuration:=Sample.configuration) "ETHUSDT" Sample.assetMap Sample.referenceMap Sample.indexMap
            (Sample.day 101) = Some Sample.example101) as Hex
    by (vm_compute; reflexivity).
  split; [reflexivity|]. split; [exact Hex|].
  destruct (dailyExample_feature_vector (configuration:=Sample.configuration)
              "ETHUSDT" Sample.assetMap Sample.referenceMap Sample.indexMap
              (Sample.day 101) _ _ eq_refl Hex)
    as (assetMomentum & referenceMomentum & indexMomentum & Hfeatures & _).
  exists assetMomentum, referenceMomentum, indexMomentum. exact Hfeatures.
Defined.

Lemma dailyExample_index_anchor_witness :
  dailyExample (configuration:=Sample.configuration) "ETHUSDT"
    Sample.assetMap Sample.referenceMap Sample.indexMap (Sample.day 101)
  = Some Sample.example101 ∧
  Sample.indexMap !! Sample.day 101 = None ∧
  getClosestRecord (Sample.day 101) Sample.indexMap
    = (Sample.day 100, f64 12, true) ∧
  getClosestRecord (AddDate (Sample.day 100) (-1)) Sample.indexMap
    = (Sample.day 97, f64 10, true) ∧
  Sample.example101.1 !! 2%nat = Some (getRateOfChange (f64 12) (f64 10)) ∧
  getClosestRecord (AddDate (Sample.day 101) (-1)) Sample.indexMap
    = (Sample.day 100, f64 12, true).
Proof.
  assert (dailyExample (configuration:=Sample.configuration) "ETHUSDT"
            Sample.assetMap Sample.referenceMap Sample.indexMap (Sample.day 101)
          = Some Sample.example101) as Hex by (vm_compute; reflexivity).
  assert (getClosestRecord (Sample.day 101) Sample.indexMap
          = (Sample.day 100, f64 12, true)) as Hcurrent
    by (vm_compute; reflexivity).
  assert (getClosestRecord (AddDate (Sample.day 100) (-1)) Sample.indexMap
          = (Sample.day 97, f64 10, true)) as Hprevious
    by (vm_compute; reflexivity).
  split; [exact Hex|]. split; [vm_compute; reflexivity|].
  split; [exact Hcurrent|]. split; [exact Hprevious|]. split.
  - destruct (proj1 (dailyExample_index_anchor (configuration:=Sample.configuration)
                       Sample.indexMap)
                "ETHUSDT" Sample.assetMap Sample.referenceMap (Sample.day 101)
                Sample.example101.1 Sample.example101.2 Hex)
      as (found & current & previousFound & previous & Hc & Hp & Hmomentum).
    rewrite Hcurrent in Hc. injection Hc as <- <-.
    rewrite Hprevious in Hp. injection Hp as <- <-.
    exact (Hmomentum eq_refl).
  - refine (proj2 (proj2
             (proj2 (dailyExample_index_anchor (configuration:=Sample.configuration)
                       Sample.indexMap)
                (Sample.day 97) (Sample.day 100) (f64 10) (f64 12) 3 1
                _ _ _ _ _ _ _)) _).
    + vm_compute; reflexivity.
    + vm_compute; reflexivity.
    + vm_compute; reflexivity.
    + lia.
    + intros k Hk.
      assert (k = 1 ∨ k = 2) as [-> | ->] by lia; vm_compute; reflexivity.
    + lia.
    + intros k Hk. assert (k = 1) as -> by lia. vm_compute; reflexivity.
    + lia.
Defined.

Lemma getRegressionCells_partition_routing_witness :
  let p := forDates (configuration:=Sample.configuration) "ETHUSDT"
             Sample.assetMap Sample.referenceMap Sample.indexMap
             (Sample.day 101) noExamples in
  trainingFeatures p = [Sample.example101.1] ∧
  trainingLabels p = [Sample.example101.2] ∧
  testFeatures p = [] ∧
  (Sample.day 102 ∈ dates (Sample.day 101) (Sample.day 104) ↔
   ∃ k, 0 ≤ k ∧ Sample.day 102 = AddDate (Sample.day 101) k ∧
        Sample.day 102 < Sample.day 104).
Proof.
  intros p.
  destruct (getRegressionCells_partition_routing (configuration:=Sample.configuration)
              "ETHUSDT" Sample.assetMap Sample.referenceMap Sample.indexMap)
    as (Htf & Htl & Hsf & _ & Hdays & _).
  split; [etransitivity; [exact Htf|vm_compute; reflexivity]|].
  split; [etransitivity; [exact Htl|vm_compute; reflexivity]|].
  split; [etransitivity; [exact Hsf|vm_compute; reflexivity]|].
  apply Hdays.
Defined.

(** ** float64 arithmetic *)

Section Float64.
Implicit Types (x y : float64).

Lemma is_finite_nonzero_finite x : is_finite_nonzero x = true → is_finite x = true.
Proof. by destruct x. Qed.

(** [x - x] is +0 for every number [x]. *)
Lemma SFsub_diag x : is_finite x = true → (x - x)%F = Zero.
Proof.
  destruct x as [[]|[]| |s m e]; try done. intros _.
  unfold SFsub. rewrite Z.sub_diag. reflexivity.
Qed.

Lemma div_eucl_shiftl (m : positive) (n : Z) :
  0 ≤ n → Z.div_eucl (Z.shiftl (Z.pos m) n) (Z.pos m) = (2 ^ n, 0).
Proof.
  intros Hn. rewrite Z.shiftl_mul_pow2 by done.
  pose proof (Z.div_mul (2 ^ n) (Z.pos m) ltac:(lia)) as Hq.
  pose proof (Z.mod_mul (2 ^ n) (Z.pos m) ltac:(lia)) as Hr.
  rewrite (Z.mul_comm (2 ^ n)) in Hq, Hr.
  unfold Z.div, Z.modulo in Hq, Hr.
  destruct (Z.div_eucl (Z.pos m * 2 ^ n) (Z.pos m)) as [q r].
  simpl in Hq, Hr. by subst.
Qed.

Lemma new_location_exact (m : positive) : new_location (Z.pos m) 0 = loc_Exact.
Proof. unfold new_location. by destruct (Z.even (Z.pos m)). Qed.

(** [x / x] is 1.0 for every finite non-zero [x]. *)
Lemma SFdiv_diag x : is_finite_nonzero x = true → (x / x)%F = One.
Proof.
  destruct x as [[]|[]| |s m e]; try done. intros _.
  unfold SFdiv, SFdiv_core_binary. cbv zeta.
  replace (Zdigits2 (Z.pos m) + e - (Zdigits2 (Z.pos m) + e)) with 0 by lia.
  rewrite Z.sub_diag.
  change (Z.min (fexp prec emax 0) 0) with (-53).
  change (0 - -53) with 53. cbv iota.
  rewrite (div_eucl_shiftl m 53) by lia.
  rewrite new_location_exact, xorb_nilpotent. reflexivity.
Qed.

Lemma SFadd_finite_inv x y :
  is_finite (x + y) = true → is_finite x = true ∧ is_finite y = true.
Proof.
  destruct x as [[]|[]| |sx mx ex], y as [[]|[]| |sy my ey];
    first [by split | by intros [=]].
Qed.

Lemma SFsub_finite_inv x y :
  is_finite (x - y) = true → is_finite x = true ∧ is_finite y = true.
Proof.
  destruct x as [[]|[]| |sx mx ex], y as [[]|[]| |sy my ey];
    first [by split | by intros [=]].
Qed.

Lemma SFmul_diag_finite_inv x : is_finite (x * x) = true → is_finite x = true.
Proof. by destruct x as [[]|[]| |sx mx ex]. Qed.

(** [<] on float64 is asymmetric. *)
Lemma SFcompare_antisym x y : SFcompare y x = CompOpp <$> SFcompare x y.
Proof.
  destruct x as [[]|[]| |[] mx ex], y as [[]|[]| |[] my ey]; try done;
    simpl; f_equal; rewrite (Z.compare_antisym ex ey);
    destruct (ex ?= ey); simpl; try done;
    pose proof (Pos.compare_antisym mx my) as Hm; unfold Pos.compare in Hm;
    rewrite Hm; by rewrite ?CompOpp_involutive.
Qed.

Lemma SFltb_asym x y : (x <? y)%F = true → (y <? x)%F = false.
Proof.
  unfold SFltb. rewrite (SFcompare_antisym x y).
  by destruct (SFcompare x y) as [[]|].
Qed.

Lemma sumSquares_snoc xs x : sumSquares (xs ++ [x]) = (sumSquares xs + x * x)%F.
Proof. unfold sumSquares. by rewrite foldl_snoc. Qed.

Lemma foldl_squares_finite xs sum :
  is_finite (foldl (λ sum x, (sum + x * x)%F) sum xs) = true →
  is_finite sum = true ∧ Forall (λ x, is_finite x = true) xs.
Proof.
  revert sum. induction xs as [|x xs IH]; intros sum Hfin; simpl in *.
  - by split.
  - apply IH in Hfin as [Hsum Hxs].
    apply SFadd_finite_inv in Hsum as [Hsum Hx].
    apply SFmul_diag_finite_inv in Hx. split; [done|]. by constructor.
Qed.

(** A finite sum of squares has only numbers as terms. *)
Lemma sumSquares_finite xs :
  is_finite (sumSquares xs) = true → Forall (λ x, is_finite x = true) xs.
Proof. intros H. by apply foldl_squares_finite in H as [_ ?]. Qed.

Lemma sumSquares_zeros xs :
  Forall (λ x, x = Zero) xs → sumSquares xs = Zero.
Proof.
  induction xs as [|x xs IH] using rev_ind; [done|].
  intros [Hxs Hx]%Forall_app. rewrite Forall_singleton in Hx.
  by rewrite Hx, sumSquares_snoc, IH.
Qed.

End Float64.

(** ** Scoring, backtest and report *)

Section Loops.
Context {S X : Type}.

(** A [for i := range] loop whose body, at every index, succeeds and is
    a function of the element at that index, is a left fold. *)
Lemma forRange_foldl (body : nat → S → outcome S) (g : S → X → S)
    (xs : list X) (i : nat) (s : S) :
  (∀ k x s, xs !! k = Some x → body (i + k)%nat s = Done (g s x)) →
  forRange body i (length xs) s = Done (foldl g s xs).
Proof.
  revert i s. induction xs as [|x xs IH]; intros i s Hbody; [done|].
  simpl. pose proof (Hbody 0%nat x s eq_refl) as H0.
  rewrite Nat.add_0_r in H0. rewrite H0. simpl.
  apply IH. intros k y s' Hk.
  replace (Datatypes.S i + k)%nat with (i + Datatypes.S k)%nat by lia.
  by apply Hbody.
Qed.
End Loops.

Section Scoring.
Context {commons : Commons} {LeastSquares : Type} {linear : Linear LeastSquares}.
Implicit Types (features : list (list float64)) (labels predictions : list float64).
Implicit Types (model : LeastSquares).

Lemma predict1_Some model f p :
  predict1 model f = Some p →
  ∃ prediction, Predict model f = Some prediction ∧ prediction !! 0%nat = Some p.
Proof.
  unfold predict1. destruct (Predict model f) as [prediction|]; [|done].
  simpl. rewrite head_lookup. by exists prediction.
Qed.

(** The two running sums of [getR2Score] as one fold over the labels
    paired with the predictions. *)
Lemma getR2Score_foldl features labels model predictions :
  length labels = length features →
  mapM (predict1 model) features = Some predictions →
  getR2Score features labels model =
  let '(residualSum, totalSum) :=
    foldl (λ '(residualSum, totalSum) '(label, prediction),
             ((residualSum + (label - prediction) * (label - prediction))%F,
              (totalSum + (label - Mean labels) * (label - Mean labels))%F))
          (Zero, Zero) (zip labels predictions) in
  Done (One - residualSum / totalSum)%F.
Proof.
  intros Hlen Hpred%mapM_Some. pose proof (Forall2_length _ _ _ Hpred) as Hlen'.
  unfold getR2Score.
  replace (length features) with (length (zip labels predictions))
    by (rewrite length_zip; lia).
  pose (g := λ '((residualSum, totalSum) : float64 * float64)
               '((label, prediction) : float64 * float64),
          ((residualSum + (label - prediction) * (label - prediction))%F,
           (totalSum + (label - Mean labels) * (label - Mean labels))%F)).
  rewrite (forRange_foldl _ g (zip labels predictions) 0 (Zero, Zero));
    [simpl; by destruct (foldl _ _ _)|].
  intros k [label p] [residualSum totalSum] Hk.
  apply lookup_zip_with_Some in Hk as (? & ? & [= <- <-] & Hl & Hp).
  destruct (Forall2_lookup_r _ _ _ _ _ Hpred Hp) as (f & Hf & Hfp).
  apply predict1_Some in Hfp as (prediction & Hpr & Hp0).
  simpl. unfold index. rewrite Hl, Hf. simpl. rewrite Hpr. simpl.
  by rewrite Hp0.
Qed.

Lemma foldl_sums labels predictions mean residualSum totalSum :
  length labels = length predictions →
  foldl (λ '(residualSum, totalSum) '(label, prediction),
           ((residualSum + (label - prediction) * (label - prediction))%F,
            (totalSum + (label - mean) * (label - mean))%F))
        (residualSum, totalSum) (zip labels predictions) =
  (foldl (λ sum x, (sum + x * x)%F) residualSum
         (zip_with (λ label prediction, (label - prediction)%F) labels predictions),
   foldl (λ sum x, (sum + x * x)%F) totalSum
         ((λ label, (label - mean)%F) <$> labels)).
Proof.
  revert predictions residualSum totalSum.
  induction labels as [|label labels IH];
    intros [|p predictions] residualSum totalSum Hlen; try done.
  simpl. apply IH. simpl in Hlen. lia.
Qed.

(** C5. When every prediction succeeds, the R² score of a partition is
    1 minus the sum of the squared residuals over the sum of the squared
    deviations of the labels from the mean of the labels of that same
    partition, both sums accumulated from 0.0 in partition order.  When
    that sum of squared deviations is a finite non-zero number (a
    non-empty partition with non-zero label variance), the score is 1.0
    if every prediction equals its label, and 0.0 if every prediction
    equals the mean of the labels. *)
Theorem getR2Score_formula features labels model predictions :
  length labels = length features →
  mapM (predict1 model) features = Some predictions →
  let residuals := zip_with (λ label prediction, (label - prediction)%F)
                     labels predictions in
  let deviations := (λ label, (label - Mean labels)%F) <$> labels in
  getR2Score features labels model
    = Done (One - sumSquares residuals / sumSquares deviations)%F ∧
  (is_finite_nonzero (sumSquares deviations) = true →
   predictions = labels →
   getR2Score features labels model = Done One) ∧
  (is_finite_nonzero (sumSquares deviations) = true →
   (∀ prediction, prediction ∈ predictions → prediction = Mean labels) →
   getR2Score features labels model = Done Zero).
Proof.
  intros Hlen Hpred residuals deviations.
  pose proof (Forall2_length _ _ _ (mapM_Some_1 _ _ _ Hpred)) as Hlen'.
  assert (getR2Score features labels model
          = Done (One - sumSquares residuals / sumSquares deviations)%F) as Hscore.
  { rewrite (getR2Score_foldl _ _ _ _ Hlen Hpred).
    rewrite foldl_sums by lia. done. }
  split; [done|]. rewrite Hscore. split.
  - intros Htotal ->. f_equal.
    assert (Forall (λ x, is_finite x = true) labels) as Hlabels.
    { apply is_finite_nonzero_finite, sumSquares_finite in Htotal.
      subst deviations. rewrite Forall_fmap in Htotal.
      eapply Forall_impl; [exact Htotal|]. simpl.
      by intros label [? _]%SFsub_finite_inv. }
    rewrite (sumSquares_zeros residuals).
    + destruct (sumSquares deviations) as [| | |[] m e]; done.
    + subst residuals. rewrite zip_with_diag, Forall_fmap.
      eapply Forall_impl; [exact Hlabels|]. simpl. apply SFsub_diag.
  - intros Htotal Hmean. f_equal.
    assert (residuals = deviations) as ->.
    { assert (length labels = length predictions) as Hlp by lia.
      subst residuals deviations. clear Hscore Htotal Hpred Hlen Hlen'.
      revert predictions Hlp Hmean. generalize (Mean labels). intros mean.
      induction labels as [|label labels IH]; intros [|p predictions] Hlen Hmean;
        [done|simpl in Hlen; lia..|].
      simpl. rewrite (Hmean p) by left. f_equal. apply IH.
      - simpl in Hlen. lia.
      - intros q Hq. apply Hmean. by right. }
    by rewrite SFdiv_diag.
Qed.

End Scoring.

Lemma getR2Score_formula_witness :
  let model : list float64 := [Zero; One] in
  let features := [[f64 1]; [f64 3]] in
  let labels := [f64 1; f64 3] in
  getR2Score (commons:=Sample.commons) (linear:=Sample.linear)
    features labels model = Done One.
Proof.
  intros model features labels.
  apply (proj1 (proj2 (getR2Score_formula (commons:=Sample.commons)
                         (linear:=Sample.linear)
                         features labels model labels eq_refl eq_refl)));
    reflexivity.
Defined.

Section Backtest.
Context {configuration : Configuration}.
Context {ohlc : Ohlc} {commons : Commons}.
Context {LeastSquares : Type} {linear : Linear LeastSquares}.
Implicit Types (features : list (list float64)) (labels predictions : list float64).
Implicit Types (model : LeastSquares) (returns : list float64).

(** *** The two return streams *)

Lemma foldl_streams predictions labels (long short : float64 → float64 → float64)
    (longReturns shortReturns : list float64) :
  foldl (λ '(longReturns, shortReturns) '(signal, label),
           (longReturns ++ [long signal label],
            shortReturns ++ [short signal label]))
        (longReturns, shortReturns) (zip predictions labels) =
  (longReturns ++ zip_with long predictions labels,
   shortReturns ++ zip_with short predictions labels).
Proof.
  revert labels longReturns shortReturns.
  induction predictions as [|p predictions IH];
    intros [|label labels] longReturns shortReturns; simpl;
    rewrite ?app_nil_r; try done.
  by rewrite IH, <- !app_assoc.
Qed.

Lemma runBacktest_zip features labels model predictions :
  length labels = length features →
  mapM (predict1 model) features = Some predictions →
  runBacktest features labels model =
  Done (zip_with (λ signal label,
                    if (signal >? LongThreshold)%F then label else Zero)
                 predictions labels,
        zip_with (λ signal label,
                    if (signal <? ShortThreshold)%F
                    then (One / (One + label) - One)%F else Zero)
                 predictions labels).
Proof.
  intros Hlen Hpred%mapM_Some. pose proof (Forall2_length _ _ _ Hpred) as Hlen'.
  unfold runBacktest.
  replace (length features) with (length (zip predictions labels))
    by (rewrite length_zip; lia).
  pose (g := λ '((longReturns, shortReturns) : list float64 * list float64)
               '((signal, label) : float64 * float64),
          (longReturns ++ [if (signal >? LongThreshold)%F then label else Zero],
           shortReturns ++ [if (signal <? ShortThreshold)%F
                            then (One / (One + label) - One)%F else Zero])).
  rewrite (forRange_foldl _ g (zip predictions labels) 0 ([], [])).
  - subst g. by rewrite foldl_streams.
  - intros k [p label] [longReturns shortReturns] Hk.
    apply lookup_zip_with_Some in Hk as (? & ? & [= <- <-] & Hp & Hl).
    destruct (Forall2_lookup_r _ _ _ _ _ Hpred Hp) as (f & Hf & Hfp).
    apply predict1_Some in Hfp as (prediction & Hpr & Hp0).
    simpl. unfold index. rewrite Hf. simpl. rewrite Hpr. simpl.
    rewrite Hp0. simpl. rewrite Hl. simpl.
    by destruct (p >? LongThreshold)%F, (p <? ShortThreshold)%F.
Qed.

(** C2. When every prediction succeeds, the backtest returns two streams
    with one entry per test example, in test-partition order.  At
    position [i], with prediction [p] and label [l], the long stream
    holds [l] if [p > LongThreshold] and 0.0 otherwise, and the short
    stream holds [1/(1+l) - 1] if [p < ShortThreshold] and 0.0
    otherwise; a prediction strictly between the short and the long
    threshold gives 0.0 in both. *)
Theorem runBacktest_streams features labels model predictions :
  length labels = length features →
  mapM (predict1 model) features = Some predictions →
  ∃ longReturns shortReturns,
    runBacktest features labels model = Done (longReturns, shortReturns) ∧
    length longReturns = length features ∧
    length shortReturns = length features ∧
    (∀ i p l,
        predictions !! i = Some p → labels !! i = Some l →
        longReturns !! i
          = Some (if (p >? LongThreshold)%F then l else Zero) ∧
        shortReturns !! i
          = Some (if (p <? ShortThreshold)%F
                  then (One / (One + l) - One)%F else Zero)) ∧
    (∀ i p,
        predictions !! i = Some p →
        (ShortThreshold <? p)%F = true → (p <? LongThreshold)%F = true →
        longReturns !! i = Some Zero ∧ shortReturns !! i = Some Zero).
Proof.
  intros Hlen Hpred.
  pose proof (Forall2_length _ _ _ (mapM_Some_1 _ _ _ Hpred)) as Hlen'.
  eexists _, _. split; [by apply runBacktest_zip|].
  rewrite !length_zip_with.
  split; [lia|]. split; [lia|]. split.
  - intros i p l Hp Hl. split; apply lookup_zip_with_Some; by exists p, l.
  - intros i p Hp Hshort Hlong.
    destruct (labels !! i) as [l|] eqn:Hl.
    2:{ apply lookup_ge_None in Hl. apply lookup_lt_Some in Hp. lia. }
    apply SFltb_asym in Hshort, Hlong.
    split; apply lookup_zip_with_Some; exists p, l; by rewrite ?Hshort, ?Hlong.
Qed.

(** *** The Sharpe ratio *)

(** C3. For a series of at least two returns the Sharpe ratio is
    [sqrt(52) * ((mean - RiskFreeRate/52) / stddev)], unless that value
    is +Inf or -Inf, in which case it is NaN; for fewer than two returns
    it is NaN.  A standard deviation of zero always yields NaN, and the
    function never returns an infinity. *)
Theorem getSharpeRatio_formula returns :
  let ratio :=
    (Sqrt (f64 52) * ((Mean returns - RiskFreeRate / f64 52) / StdDev returns))%F in
  ((length returns < 2)%nat → getSharpeRatio returns = NaN) ∧
  ((2 ≤ length returns)%nat → (∃ s, ratio = S754_infinity s) →
   getSharpeRatio returns = NaN) ∧
  ((2 ≤ length returns)%nat → (∀ s, ratio ≠ S754_infinity s) →
   getSharpeRatio returns = ratio) ∧
  ((2 ≤ length returns)%nat → (∃ s, StdDev returns = S754_zero s) →
   getSharpeRatio returns = NaN) ∧
  (∀ s, getSharpeRatio returns ≠ S754_infinity s).
Proof.
  intros ratio. unfold getSharpeRatio. fold ratio in |- *.
  change (f64 weeksPerYear) with (f64 52). fold ratio.
  split; [|split; [|split; [|split]]].
  - intros Hlen. by rewrite (proj2 (Nat.ltb_lt _ _) Hlen).
  - intros Hlen [s Hinf]. rewrite (proj2 (Nat.ltb_ge _ _) Hlen), Hinf.
    by destruct s.
  - intros Hlen Hfin. rewrite (proj2 (Nat.ltb_ge _ _) Hlen).
    destruct ratio as [| [] | |]; try done; by edestruct Hfin.
  - intros Hlen [s Hzero]. rewrite (proj2 (Nat.ltb_ge _ _) Hlen).
    subst ratio. rewrite Hzero.
    change (Sqrt (f64 52)) with (S754_finite false 8118979690322419 (-50)).
    destruct (Mean returns - RiskFreeRate / f64 52)%F as [[]|[]| |[] m e],
      s; reflexivity.
  - intros s. destruct (length returns <? 2)%nat; [done|].
    destruct ratio as [| [] | |]; done.
Qed.

End Backtest.

Lemma runBacktest_streams_witness :
  let model : list float64 := [(f64 5 / f64 1000)%F; Zero] in
  let features := [[One]] in
  let labels := [(f64 1 / f64 10)%F] in
  ∃ longReturns shortReturns,
    runBacktest (configuration:=Sample.configuration) (linear:=Sample.linear)
      features labels model = Done (longReturns, shortReturns) ∧
    longReturns !! 0%nat = Some Zero ∧ shortReturns !! 0%nat = Some Zero.
Proof.
  intros model features labels.
  destruct (runBacktest_streams (configuration:=Sample.configuration)
              (linear:=Sample.linear) features labels model
              [(f64 5 / f64 1000)%F] eq_refl eq_refl)
    as (longReturns & shortReturns & Hrun & _ & _ & _ & Hflat).
  exists longReturns, shortReturns. split; [exact Hrun|].
  exact (Hflat 0%nat (f64 5 / f64 1000)%F eq_refl eq_refl eq_refl).
Defined.

Lemma getSharpeRatio_formula_witness :
  getSharpeRatio (configuration:=Sample.configuration) (commons:=Sample.commons)
    [f64 1] = NaN ∧
  getSharpeRatio (configuration:=Sample.configuration) (commons:=Sample.commons)
    [f64 1; f64 1] = NaN.
Proof.
  split.
  - apply (proj1 (getSharpeRatio_formula (configuration:=Sample.configuration)
                    (commons:=Sample.commons) [f64 1])).
    simpl. lia.
  - apply (proj1 (proj2 (proj2 (proj2
             (getSharpeRatio_formula (configuration:=Sample.configuration)
                (commons:=Sample.commons) [f64 1; f64 1]))))).
    + simpl. lia.
    + exists false. reflexivity.
Defined.

Section Report.
Context {configuration : Configuration}.
Context {ohlc : Ohlc} {commons : Commons}.
Context {LeastSquares : Type} {linear : Linear LeastSquares}.
Implicit Types (symbol : string) (referenceMap indexMap : timePriceMap).

(** The last six cells of a row and the score kept for the median. *)
Lemma getRegressionCells_Done symbol startDate referenceMap indexMap data :
  getRegressionCells symbol startDate referenceMap indexMap = Done data →
  let p := forDates symbol (loadDailyRecords symbol startDate true false)
             referenceMap indexMap StartDate noExamples in
  ∃ model front isR2Score longReturns shortReturns,
    getR2Score (trainingFeatures p) (trainingLabels p) model = Done isR2Score ∧
    getR2Score (testFeatures p) (testLabels p) model = Done (oosR2Score data) ∧
    runBacktest (testFeatures p) (testLabels p) model
      = Done (longReturns, shortReturns) ∧
    cells data =
      addReturns shortReturns
        (addReturns longReturns
           (addR2Score (oosR2Score data) (addR2Score isR2Score front))).
Proof.
  intros Hdone p. unfold getRegressionCells in Hdone. fold p in Hdone.
  destruct (Learn _) as [model|]; [|done]. simpl in Hdone.
  destruct (forRange (addParameter model) 1 _ _) as [cells1|]; [|done].
  simpl in Hdone.
  destruct (addParameter model 0 cells1) as [front|]; [|done]. simpl in Hdone.
  destruct (getR2Score (trainingFeatures p) _ model) as [isR2Score|] eqn:His;
    [|done].
  simpl in Hdone.
  destruct (getR2Score (testFeatures p) _ model) as [oos|] eqn:Hoos; [|done].
  simpl in Hdone.
  destruct (runBacktest _ _ model) as [[longReturns shortReturns]|] eqn:Hrun;
    [|done].
  simpl in Hdone. injection Hdone as <-. simpl.
  by exists model, front, isR2Score, longReturns, shortReturns.
Qed.

(** *** The report cells of a return stream *)

(** C9. The two cells of a return stream are both the placeholder "-"
    when the sum of the stream equals 0.0, whatever the Sharpe ratio of
    the stream is; otherwise they are the total return formatted as a
    percentage and the Sharpe ratio formatted with two decimals.  A row
    of the report ends with the two cells of the long stream followed by
    the two cells of the short stream of the backtest. *)
Theorem addReturns_placeholder returns (row : list string) :
  let totalReturn := foldl (λ totalReturn r, (totalReturn + r)%F) Zero returns in
  analyzeReturns returns = (totalReturn, getSharpeRatio returns) ∧
  ((totalReturn =? Zero)%F = true →
   addReturns returns row = row ++ ["-"; "-"]) ∧
  ((totalReturn =? Zero)%F = false →
   addReturns returns row =
   row ++ [FormatPercentage totalReturn 2;
             Sprintf "%.2f" (getSharpeRatio returns)]) ∧
  (∀ symbol startDate referenceMap indexMap data,
      getRegressionCells symbol startDate referenceMap indexMap = Done data →
      let p := forDates symbol (loadDailyRecords symbol startDate true false)
                 referenceMap indexMap StartDate noExamples in
      ∃ model front longReturns shortReturns,
        runBacktest (testFeatures p) (testLabels p) model
          = Done (longReturns, shortReturns) ∧
        cells data = addReturns shortReturns (addReturns longReturns front)).
Proof.
  intros totalReturn. split; [done|].
  split; [|split].
  - unfold addReturns, analyzeReturns. fold totalReturn. by intros ->.
  - unfold addReturns, analyzeReturns. fold totalReturn. by intros ->.
  - intros symbol startDate referenceMap indexMap data Hdone p.
    apply getRegressionCells_Done in Hdone
      as (model & front & isR2Score & longReturns & shortReturns &
          _ & _ & Hrun & Hcells).
    by exists model, (addR2Score (oosR2Score data) (addR2Score isR2Score front)),
              longReturns, shortReturns.
Qed.

Lemma foldl_rows (data : list regressionData) rows scores :
  foldl (λ '(rows, oosR2Scores) d,
           (rows ++ [cells d], oosR2Scores ++ [oosR2Score d]))
        (rows, scores) data =
  (rows ++ (cells <$> data), scores ++ (oosR2Score <$> data)).
Proof.
  revert rows scores. induction data as [|d data IH]; intros rows scores; simpl.
  - by rewrite !app_nil_r.
  - by rewrite IH, <- !app_assoc.
Qed.

(** C10. On an empty partition the R² computation returns NaN, the
    result of [1 - 0/0], without failing.  When the test partition of an
    asset is empty (as it is when every date from the split date on is
    skipped), the score kept for the asset is NaN, its row shows the
    formatted NaN followed by the four placeholders of the two empty
    return streams, and the median is taken over the scores of all
    assets, this NaN included. *)
Theorem getR2Score_empty_partition :
  (∀ labels model, getR2Score [] labels model = Done NaN) ∧
  (One - Zero / Zero)%F = NaN ∧
  (∀ symbol startDate referenceMap indexMap data,
      getRegressionCells symbol startDate referenceMap indexMap = Done data →
      let p := forDates symbol (loadDailyRecords symbol startDate true false)
                 referenceMap indexMap StartDate noExamples in
      testFeatures p = [] →
      oosR2Score data = NaN ∧
      ∃ front, cells data = front ++ [FormatPercentage NaN 2; "-"; "-"; "-"; "-"]) ∧
  (∀ symbol assetMap referenceMap indexMap,
      (∀ date, date ∈ dates StartDate EndDate → SplitDate ≤ date →
               dailyExample symbol assetMap referenceMap indexMap date = None) →
      let p := forDates symbol assetMap referenceMap indexMap StartDate noExamples in
      testFeatures p = [] ∧ testLabels p = []) ∧
  (∀ rows medianR2Score,
      analyzeData = Done (rows, medianR2Score) →
      ∃ data,
        ParallelMap (λ a : Asset.t,
            getRegressionCells (Asset.Symbol a) (Asset.StartDate a)
              (loadDailyRecords bitcoinSymbol None true false)
              (loadDailyRecords IndexSymbol None false true)) Assets = Done data ∧
        rows = cells <$> data ∧
        medianR2Score = Median (oosR2Score <$> data)).
Proof.
  split; [done|]. split; [done|]. split; [|split].
  - intros symbol startDate referenceMap indexMap data Hdone p Hempty.
    apply getRegressionCells_Done in Hdone
      as (model & front & isR2Score & longReturns & shortReturns &
          _ & Hoos & Hrun & Hcells).
    fold p in Hoos, Hrun. rewrite Hempty in Hoos, Hrun.
    injection Hoos as Hoos. injection Hrun as <- <-.
    split; [done|]. exists (addR2Score isR2Score front).
    rewrite Hcells, <- Hoos. unfold addReturns, addR2Score. simpl.
    by rewrite <- !app_assoc.
  - intros symbol assetMap referenceMap indexMap Hskip p. subst p.
    rewrite forDates_foldl.
    destruct (foldl_dateStep symbol assetMap referenceMap indexMap
                (dates StartDate EndDate) noExamples) as (_ & _ & -> & ->).
    simpl.
    assert (omap (dailyExample symbol assetMap referenceMap indexMap)
              (filter (λ date, SplitDate ≤ date) (dates StartDate EndDate)) = [])
      as ->; [|done].
    induction (dates StartDate EndDate) as [|date days IH]; [done|].
    rewrite filter_cons. case_decide as Hge.
    + simpl. rewrite Hskip by (done || left).
      apply IH. intros d Hd. apply Hskip. by right.
    + apply IH. intros d Hd. apply Hskip. by right.
  - intros rows medianR2Score. unfold analyzeData.
    destruct (ParallelMap _ Assets) as [data|]; [|done]. simpl.
    rewrite foldl_rows. simpl. intros [= <- <-]. by exists data.
Qed.

End Report.

Lemma getR2Score_empty_partition_witness :
  ∃ data,
    getRegressionCells (configuration:=Sample.configuration) (ohlc:=Sample.ohlc)
      (commons:=Sample.commons) (linear:=Sample.linear)
      "ETHUSDT" None Sample.referenceMap Sample.indexMap = Done data ∧
    oosR2Score data = NaN.
Proof.
  eexists. split; [vm_compute; reflexivity|].
  refine (proj1 (proj1 (proj2 (proj2
            (getR2Score_empty_partition (configuration:=Sample.configuration)
               (ohlc:=Sample.ohlc) (commons:=Sample.commons)
               (linear:=Sample.linear))))
            "ETHUSDT" None Sample.referenceMap Sample.indexMap _ _ _)).
  - vm_compute; reflexivity.
  - vm_compute; reflexivity.
Defined.

Lemma addReturns_placeholder_witness :
  let returns := [f64 1; f64 (-1)] in
  addReturns (configuration:=Sample.configuration) (commons:=Sample.commons)
    returns ["ETHUSDT"] = ["ETHUSDT"; "-"; "-"] ∧
  getSharpeRatio (configuration:=Sample.configuration) (commons:=Sample.commons)
    returns = Zero.
Proof.
  intros returns. split; [|reflexivity].
  apply (proj1 (proj2 (addReturns_placeholder (configuration:=Sample.configuration)
                         (ohlc:=Sample.ohlc) (commons:=Sample.commons)
                         (linear:=Sample.linear) returns ["ETHUSDT"]))).
  reflexivity.
Defined.

(* ===================================================================== *)
(** * Part III: further properties of the program *)
(* ===================================================================== *)

(** ** Price series in either mode *)

Section SeriesModes.
Context {ohlc : Ohlc}.
Implicit Types (records : list Record_) (startDate : option Time).
Implicit Types (sessionEndFilter barchart : bool) (symbol : string).

(** A record either overwrites the entry of its key, when it is kept, or
    leaves the series alone. *)
Lemma loadDailyRecord_kept startDate sessionEndFilter output record :
  loadDailyRecord startDate sessionEndFilter output record =
  if kept startDate sessionEndFilter record
  then <[keyOf sessionEndFilter record := Close record]> output
  else output.
Proof.
  unfold loadDailyRecord, kept, keyOf.
  destruct (match startDate with Some _ => _ | None => _ end); [done|].
  destruct sessionEndFilter; simpl; [|done].
  by case_decide; [rewrite bool_decide_eq_true_2|rewrite bool_decide_eq_false_2].
Qed.

Lemma lookup_loadDailyRecords startDate sessionEndFilter records key :
  foldl (loadDailyRecord startDate sessionEndFilter) ∅ records !! key =
  Close <$> last (filter (λ r, kept startDate sessionEndFilter r ∧
                               keyOf sessionEndFilter r = key) records).
Proof.
  induction records as [|record records IH] using rev_ind; [done|].
  rewrite foldl_snoc, filter_app, loadDailyRecord_kept.
  rewrite filter_cons, filter_nil.
  case_decide as Hkeep.
  - destruct Hkeep as [Hkept <-]. apply Is_true_true in Hkept.
    by rewrite Hkept, lookup_insert_eq, last_snoc.
  - rewrite app_nil_r.
    destruct (kept startDate sessionEndFilter record) eqn:Hkept; [|done].
    rewrite lookup_insert_ne; [done|]. intros Heq. by apply Hkeep.
Qed.

(** A key is present exactly when some kept record has it. *)
Lemma is_Some_loadDailyRecords startDate sessionEndFilter records key :
  is_Some (foldl (loadDailyRecord startDate sessionEndFilter) ∅ records !! key) ↔
  ∃ record, record ∈ records ∧
    kept startDate sessionEndFilter record = true ∧
    keyOf sessionEndFilter record = key.
Proof.
  rewrite lookup_loadDailyRecords, fmap_is_Some. split.
  - intros [record Hlast].
    apply last_Some_elem_of, list_elem_of_filter in Hlast as [[Hkept Hkey] Hin].
    exists record. by rewrite <- Is_true_true.
  - intros (record & Hin & Hkept & Hkey).
    assert (record ∈ filter (λ r, kept startDate sessionEndFilter r ∧
                                  keyOf sessionEndFilter r = key) records) as Hf.
    { apply list_elem_of_filter. by rewrite Is_true_true. }
    destruct (filter _ records) as [|r rs] using rev_ind.
    + by apply not_elem_of_nil in Hf.
    + rewrite last_snoc. by eexists.
Qed.

(** X1. In pass-through mode the value stored at a timestamp is the close
    of the last record, in input order, that carries this timestamp and
    is not before the start date.  When the timestamps of the input are
    pairwise distinct, every record that is not before the start date is
    read back at its own timestamp with its own close. *)
Theorem loadDailyRecords_pass_through symbol startDate barchart :
  let records :=
    if barchart then MustReadBarchart symbol else MustReadBinance symbol in
  let output := loadDailyRecords symbol startDate false barchart in
  (∀ t, output !! t =
        Close <$> last (filter (λ r, kept startDate false r ∧ Timestamp r = t)
                               records)) ∧
  (NoDup (Timestamp <$> records) →
   ∀ record, record ∈ records →
     (∀ start, startDate = Some start → start ≤ Timestamp record) →
     output !! Timestamp record = Some (Close record)).
Proof.
  intros records output. unfold loadDailyRecords in output. fold records in output.
  split.
  - intros t. subst output. by rewrite lookup_loadDailyRecords.
  - intros Hnodup record Hin Hstart. subst output.
    rewrite lookup_loadDailyRecords. simpl.
    assert (kept startDate false record = true) as Hkept.
    { unfold kept. rewrite andb_true_r. apply negb_true_iff.
      destruct startDate as [start|]; [|done].
      apply Z.ltb_ge. by apply Hstart. }
    clear Hstart. induction records as [|r records IH] using rev_ind.
    { by apply not_elem_of_nil in Hin. }
    rewrite fmap_app in Hnodup. apply NoDup_app in Hnodup as (Hnd & Hfresh & _).
    rewrite filter_app, filter_cons, filter_nil.
    apply elem_of_app in Hin as [Hin|Hin%list_elem_of_singleton].
    + rewrite decide_False, app_nil_r; [by apply IH|].
      intros [_ Heq]. apply (Hfresh (Timestamp record)).
      * by apply list_elem_of_fmap_2.
      * rewrite <- Heq. simpl. by left.
    + subst r. rewrite decide_True by (by rewrite Hkept). by rewrite last_snoc.
Qed.

(** X2. In either mode a key is present in the series exactly when some
    input record that is kept (not before the start date and, in collapse
    mode, stamped 21:00) has this key; so the series is empty, without
    any error, exactly when no input record is kept, as for an empty
    input. *)
Theorem loadDailyRecords_present_iff symbol startDate sessionEndFilter barchart :
  let records :=
    if barchart then MustReadBarchart symbol else MustReadBinance symbol in
  let output := loadDailyRecords symbol startDate sessionEndFilter barchart in
  (∀ key, is_Some (output !! key) ↔
          ∃ record, record ∈ records ∧
            kept startDate sessionEndFilter record = true ∧
            keyOf sessionEndFilter record = key) ∧
  (output = ∅ ↔ Forall (λ r, kept startDate sessionEndFilter r = false) records) ∧
  (records = [] → output = ∅).
Proof.
  intros records output. unfold loadDailyRecords in output. fold records in output.
  assert (∀ key, is_Some (output !! key) ↔
          ∃ record, record ∈ records ∧
            kept startDate sessionEndFilter record = true ∧
            keyOf sessionEndFilter record = key) as Hpresent
    by (intros key; apply is_Some_loadDailyRecords).
  split; [done|]. split; [split|].
  - intros Hempty. apply Forall_forall. intros r Hin.
    destruct (kept startDate sessionEndFilter r) eqn:Hkept; [|done].
    assert (is_Some (output !! keyOf sessionEndFilter r)) as [v Hv]
      by (apply Hpresent; by exists r).
    by rewrite Hempty, lookup_empty in Hv.
  - intros Hnone. apply map_empty. intros key.
    apply eq_None_not_Some. intros (r & Hin & Hkept & _)%Hpresent.
    rewrite Forall_forall in Hnone. by rewrite (Hnone r Hin) in Hkept.
  - intros Hnil. subst output. by rewrite Hnil.
Qed.

End SeriesModes.

Lemma loadDailyRecords_pass_through_witness :
  loadDailyRecords (ohlc:=Sample.ohlc) "SPX" None false true !! Sample.day 97
  = Some (f64 10).
Proof.
  refine (proj2 (loadDailyRecords_pass_through (ohlc:=Sample.ohlc) "SPX" None true)
            _ {| Timestamp := Sample.day 97; Close := f64 10 |} _ _).
  - simpl. unfold Sample.spxBars. simpl.
    apply NoDup_cons. split; [|apply NoDup_singleton].
    intros Hin%list_elem_of_singleton. by vm_compute in Hin.
  - simpl. unfold Sample.spxBars. by left.
  - intros start [=].
Defined.

Lemma loadDailyRecords_present_iff_witness :
  is_Some (loadDailyRecords (ohlc:=Sample.ohlc) "ETHUSDT" None true false
             !! Sample.day 101).
Proof.
  apply (proj1 (loadDailyRecords_present_iff (ohlc:=Sample.ohlc)
                  "ETHUSDT" None true false)).
  exists {| Timestamp := Sample.at_ 101 21; Close := f64 110 |}.
  split; [|split]; [|reflexivity..].
  simpl. unfold Sample.ethBars. right. by left.
Defined.

(** ** More on the closest-prior lookup *)

Section ClosestRecordWindow.
Implicit Types (indexMap : timePriceMap) (date : Time) (close : float64).

Lemma getClosestRecordLoop_local n indexMap1 indexMap2 date :
  (∀ k, 0 ≤ k < Z.of_nat n →
        indexMap1 !! AddDate date (- k) = indexMap2 !! AddDate date (- k)) →
  getClosestRecordLoop n date indexMap1 = getClosestRecordLoop n date indexMap2.
Proof.
  revert date. induction n as [|n IH]; intros date Hagree; [done|].
  simpl. pose proof (Hagree 0 ltac:(lia)) as H0.
  change (- 0) with 0 in H0. rewrite AddDate_0 in H0. rewrite <- H0.
  destruct (indexMap1 !! date); [done|].
  apply IH. intros k Hk. rewrite AddDate_AddDate.
  replace (-1 + - k) with (- (k + 1)) by lia. apply Hagree. lia.
Qed.

Lemma getClosestRecordLoop_hit_exists n indexMap date :
  (∃ k, 0 ≤ k < Z.of_nat n ∧ is_Some (indexMap !! AddDate date (- k))) →
  (getClosestRecordLoop n date indexMap).2 = true.
Proof.
  revert date. induction n as [|n IH]; intros date (k & Hk & Hsome); [lia|].
  simpl. destruct (indexMap !! date) as [c|] eqn:Hd; [done|].
  apply IH. exists (k - 1).
  destruct (decide (k = 0)) as [->|Hne].
  - change (- 0) with 0 in Hsome. rewrite AddDate_0, Hd in Hsome.
    by destruct Hsome.
  - split; [lia|]. rewrite AddDate_AddDate.
    by replace (-1 + - (k - 1)) with (- k) by lia.
Qed.

(** X3. The lookup reads the series only at the target date and the nine
    days before it: two series that agree on these ten dates give the
    same answer.  In particular an entry added or removed after the
    target date, or more than nine days before it, changes nothing. *)
Theorem getClosestRecord_window indexMap date :
  (∀ indexMap',
      (∀ k, 0 ≤ k ≤ 9 →
            indexMap' !! AddDate date (- k) = indexMap !! AddDate date (- k)) →
      getClosestRecord date indexMap' = getClosestRecord date indexMap) ∧
  (∀ key close,
      date < key ∨ key < AddDate date (-9) →
      getClosestRecord date (<[key := close]> indexMap)
      = getClosestRecord date indexMap) ∧
  (∀ key,
      date < key ∨ key < AddDate date (-9) →
      getClosestRecord date (delete key indexMap)
      = getClosestRecord date indexMap).
Proof.
  assert (∀ key k, date < key ∨ key < AddDate date (-9) → 0 ≤ k ≤ 9 →
                   key ≠ AddDate date (- k)) as Hout.
  { intros key k Hkey Hk ->. pose proof nsPerDay_pos. unfold AddDate in Hkey. nia. }
  unfold getClosestRecord. split; [|split].
  - intros indexMap' Hagree. apply getClosestRecordLoop_local.
    intros k Hk. apply Hagree. lia.
  - intros key close Hkey. apply getClosestRecordLoop_local.
    intros k Hk. apply lookup_insert_ne, Hout; [done|lia].
  - intros key Hkey. apply getClosestRecordLoop_local.
    intros k Hk. apply lookup_delete_ne, Hout; [done|lia].
Qed.

(** X4. The lookup reports a hit exactly when one of the ten dates
    [date, date-1, ..., date-9] is in the series; on a miss it returns the
    zero time and NaN, as it always does on an empty series; and asking
    again at the date it reported returns the same date and price. *)
Theorem getClosestRecord_exists_iff indexMap date :
  ((getClosestRecord date indexMap).2 = true ↔
   ∃ k, 0 ≤ k ≤ 9 ∧ is_Some (indexMap !! AddDate date (- k))) ∧
  ((getClosestRecord date indexMap).2 = false →
   getClosestRecord date indexMap = (zeroTime, NaN, false)) ∧
  getClosestRecord date ∅ = (zeroTime, NaN, false) ∧
  (∀ found close,
      getClosestRecord date indexMap = (found, close, true) →
      getClosestRecord found indexMap = (found, close, true)).
Proof.
  unfold getClosestRecord. split; [split|split; [|split]].
  - destruct (getClosestRecordLoop 10 date indexMap) as [[found close] ok] eqn:Hrun.
    simpl. intros ->.
    apply getClosestRecordLoop_found in Hrun as (Hhit & j & Hj & -> & _).
    exists j. split; [lia|]. by eexists.
  - intros (k & Hk & Hsome). apply getClosestRecordLoop_hit_exists.
    exists k. split; [lia|done].
  - intros Hmiss. apply getClosestRecordLoop_no_hit. intros k Hk.
    apply eq_None_not_Some. intros Hsome.
    assert ((getClosestRecordLoop 10 date indexMap).2 = true) as Hhit
      by (apply getClosestRecordLoop_hit_exists; by exists k).
    by rewrite Hmiss in Hhit.
  - apply getClosestRecordLoop_no_hit. intros k _. apply lookup_empty.
  - intros found close Hrun.
    apply getClosestRecordLoop_found in Hrun as (Hhit & _).
    simpl. by rewrite Hhit.
Qed.

End ClosestRecordWindow.

Lemma getClosestRecord_window_witness :
  getClosestRecord (Sample.day 101) (<[Sample.day 102 := f64 13]> Sample.indexMap)
  = getClosestRecord (Sample.day 101) Sample.indexMap.
Proof.
  apply (proj1 (proj2 (getClosestRecord_window Sample.indexMap (Sample.day 101)))).
  left. reflexivity.
Defined.

Lemma getClosestRecord_exists_iff_witness :
  (getClosestRecord (Sample.day 101) Sample.indexMap).2 = true ∧
  getClosestRecord (Sample.day 100) Sample.indexMap = (Sample.day 100, f64 12, true).
Proof.
  split.
  - apply (proj1 (getClosestRecord_exists_iff Sample.indexMap (Sample.day 101))).
    exists 1. split; [lia|]. exists (f64 12). vm_compute. reflexivity.
  - apply (proj2 (proj2 (proj2
             (getClosestRecord_exists_iff Sample.indexMap (Sample.day 101))))).
    vm_compute. reflexivity.
Defined.

(** ** More on feature and label construction *)

Section Examples.
Context {configuration : Configuration}.
Implicit Types (symbol : string) (assetMap referenceMap indexMap : timePriceMap).
Implicit Types (date : Time) (p : partitions).

(** X5. For a holding time in the int32 range, where the date
    [HoldingTime] days later is the one [AddDate] computes without
    wrapping around: a date yields an example exactly when it passes the
    weekday filter (if enabled), the index lookup finds a close for the
    date and another one from the found date minus one day, the asset has
    a close on the date, the day before and [HoldingTime] days later, and
    the reference asset has a close on the date and the day before.  Any
    missing key skips the date. *)
Theorem dailyExample_is_Some_iff symbol assetMap referenceMap indexMap date :
  - 2 ^ 31 ≤ HoldingTime < 2 ^ 31 →
  is_Some (dailyExample symbol assetMap referenceMap indexMap date) ↔
  (EnableWeekdayFilter = true → WeekdayOf date = WeekdayFilter) ∧
  (∃ found close,
      getClosestRecord date indexMap = (found, close, true) ∧
      (getClosestRecord (AddDate found (-1)) indexMap).2 = true) ∧
  is_Some (assetMap !! date) ∧
  is_Some (assetMap !! AddDate date (-1)) ∧
  is_Some (assetMap !! AddDate date HoldingTime) ∧
  is_Some (referenceMap !! date) ∧
  is_Some (referenceMap !! AddDate date (-1)).
Proof.
  intros _. split.
  - intros [[features label] Hex].
    apply dailyExample_Some in Hex
      as (found & ci & pfound & pi & ca & pa & na & cr & pr &
          Hfilter & Hci & Hpi & Hca & Hpa & Hna & Hcr & Hpr & _).
    split; [done|]. split; [exists found, ci; by rewrite Hpi|].
    rewrite Hca, Hpa, Hna, Hcr, Hpr. by repeat split.
  - intros (Hfilter & (found & ci & Hci & Hpi) & [ca Hca] & [pa Hpa] &
            [na Hna] & [cr Hcr] & [pr Hpr]).
    unfold dailyExample. rewrite Hci. simpl.
    destruct (getClosestRecord (AddDate found (-1)) indexMap) as [[pfound pi] ok].
    simpl in Hpi. subst ok. simpl.
    rewrite Hca, Hpa, Hna, Hcr, Hpr. simpl.
    destruct EnableWeekdayFilter; simpl; [|by eexists].
    rewrite Hfilter by done. rewrite Z.eqb_refl. simpl. by eexists.
Qed.

Lemma dailyExample_length symbol assetMap referenceMap indexMap date features label :
  dailyExample symbol assetMap referenceMap indexMap date = Some (features, label) →
  length features = featureCount.
Proof.
  intros Hex. apply dailyExample_Some in Hex
    as (found & ci & pfound & pi & ca & pa & na & cr & pr &
        _ & _ & _ & _ & _ & _ & _ & _ & -> & _).
  rewrite !length_app. unfold featureCount.
  destruct EnableMomentum, EnableReference, EnableIndex, EnableWeekdays;
    rewrite ?oneHot_length; simpl; lia.
Qed.

(** X6. The partitions the date loop builds are well formed: in each
    partition there are as many labels as feature vectors, and every
    feature vector of either partition has the same length, one entry per
    enabled scalar feature and seven for the weekday indicators. *)
Theorem forDates_well_formed symbol assetMap referenceMap indexMap :
  let p := forDates symbol assetMap referenceMap indexMap StartDate noExamples in
  length (trainingLabels p) = length (trainingFeatures p) ∧
  length (testLabels p) = length (testFeatures p) ∧
  Forall (λ features, length features = featureCount)
         (trainingFeatures p ++ testFeatures p).
Proof.
  intros p. subst p. rewrite forDates_foldl.
  destruct (foldl_dateStep symbol assetMap referenceMap indexMap
              (dates StartDate EndDate) noExamples) as (-> & -> & -> & ->).
  simpl. rewrite !length_fmap. split; [done|]. split; [done|].
  assert (∀ days, Forall (λ features, length features = featureCount)
            (omap (dailyExample symbol assetMap referenceMap indexMap) days).*1)
    as Hwidth.
  { intros days. apply Forall_fmap, Forall_forall. intros [features label] Hin.
    apply list_elem_of_omap in Hin as (date & _ & Hex). simpl.
    by eapply dailyExample_length. }
  apply Forall_app. split; apply Hwidth.
Qed.

Lemma filter_none {A} (P : A → Prop) `{!∀ x, Decision (P x)} (l : list A) :
  (∀ x, x ∈ l → ¬ P x) → filter P l = [].
Proof.
  induction l as [|x l IH]; intros Hnone; [done|].
  rewrite filter_cons, decide_False by (apply Hnone; by left).
  apply IH. intros y Hy. apply Hnone. by right.
Qed.

Lemma dates_nil start stop : stop ≤ start → dates start stop = [].
Proof.
  intros Hle. rewrite dates_unfold. unfold Before.
  by rewrite (proj2 (Z.ltb_ge _ _) Hle).
Qed.

(** X7. Degenerate date ranges give empty partitions rather than an
    error: with [EndDate] not after [StartDate] the loop body never runs;
    with [SplitDate] not after [StartDate] nothing goes to training; with
    [EndDate] not after [SplitDate] nothing goes to test.  In every case
    there are at most as many examples as days in the range. *)
Theorem forDates_degenerate_ranges symbol assetMap referenceMap indexMap :
  let p := forDates symbol assetMap referenceMap indexMap StartDate noExamples in
  (EndDate ≤ StartDate → p = noExamples) ∧
  (SplitDate ≤ StartDate → trainingFeatures p = [] ∧ trainingLabels p = []) ∧
  (EndDate ≤ SplitDate → testFeatures p = [] ∧ testLabels p = []) ∧
  (length (trainingFeatures p) + length (testFeatures p)
   ≤ length (dates StartDate EndDate))%nat ∧
  length (dates StartDate EndDate)
  = Z.to_nat ((EndDate - StartDate + nsPerDay - 1) `div` nsPerDay).
Proof.
  intros p. subst p. rewrite forDates_foldl.
  assert (∀ date, date ∈ dates StartDate EndDate → StartDate ≤ date < EndDate)
    as Hrange.
  { intros date (k & Hk & -> & Hlt)%elem_of_dates. split; [|done].
    rewrite <- (AddDate_0 StartDate) at 1. by apply AddDate_le. }
  destruct (foldl_dateStep symbol assetMap referenceMap indexMap
              (dates StartDate EndDate) noExamples) as (Htf & Htl & Hsf & Hsl).
  split; [|split; [|split; [|split]]].
  - intros Hle. by rewrite dates_nil.
  - intros Hle. rewrite Htf, Htl.
    assert (filter (λ date, date < SplitDate) (dates StartDate EndDate) = []) as ->;
      [|done].
    apply filter_none. intros date Hin%Hrange. lia.
  - intros Hle. rewrite Hsf, Hsl.
    assert (filter (λ date, SplitDate ≤ date) (dates StartDate EndDate) = []) as ->;
      [|done].
    apply filter_none. intros date Hin%Hrange. lia.
  - rewrite Htf, Hsf. simpl. rewrite !length_fmap.
    generalize (dates StartDate EndDate). intros days.
    induction days as [|date days IH]; [done|].
    rewrite !filter_cons. simpl.
    destruct (decide (date < SplitDate)), (decide (SplitDate ≤ date));
      try lia; simpl;
      destruct (dailyExample symbol assetMap referenceMap indexMap date);
      unfold omap in *; simpl; lia.
  - unfold dates. by rewrite length_fmap, length_seqZ.
Qed.

End Examples.

Lemma dailyExample_is_Some_iff_witness :
  - 2 ^ 31 ≤ @HoldingTime Sample.configuration < 2 ^ 31 ∧
  is_Some (dailyExample (configuration:=Sample.configuration) "ETHUSDT"
             Sample.assetMap Sample.referenceMap Sample.indexMap (Sample.day 101)) ∧
  is_Some (Sample.assetMap !! AddDate (Sample.day 101) 1).
Proof.
  assert (- 2 ^ 31 ≤ @HoldingTime Sample.configuration < 2 ^ 31) as Hbound
    by (simpl; lia).
  split; [exact Hbound|].
  assert (is_Some (dailyExample (configuration:=Sample.configuration) "ETHUSDT"
                     Sample.assetMap Sample.referenceMap Sample.indexMap
                     (Sample.day 101))) as Hex
    by (exists Sample.example101; vm_compute; reflexivity).
  split; [exact Hex|].
  destruct (proj1 (dailyExample_is_Some_iff (configuration:=Sample.configuration)
                     "ETHUSDT" Sample.assetMap Sample.referenceMap Sample.indexMap
                     (Sample.day 101) Hbound) Hex) as (_ & _ & _ & _ & Hnext & _).
  exact Hnext.
Defined.

Lemma forDates_degenerate_ranges_witness :
  forDates (configuration:=Sample.reversedRange) "ETHUSDT"
    Sample.assetMap Sample.referenceMap Sample.indexMap (Sample.day 104) noExamples
  = noExamples.
Proof.
  apply (proj1 (forDates_degenerate_ranges (configuration:=Sample.reversedRange)
                  "ETHUSDT" Sample.assetMap Sample.referenceMap Sample.indexMap)).
  vm_compute. intros [=].
Defined.

(** ** Outcomes of the scoring and backtest loops *)

Section LoopOutcomes.
Context {S : Type}.
Implicit Types (body : nat → S → outcome S).

Lemma forRange_app body i n m s :
  forRange body i (n + m) s = forRange body i n s ≫= forRange body (i + n) m.
Proof.
  revert i s. induction n as [|n IH]; intros i s; simpl.
  - by rewrite Nat.add_0_r.
  - destruct (body i s) as [s'|e]; simpl; [|done].
    rewrite IH. by replace (Datatypes.S i + n)%nat with (i + Datatypes.S n)%nat by lia.
Qed.

(** The loop stops at the first index whose body fails. *)
Lemma forRange_abort_at body i n k s s' e :
  (k < n)%nat →
  forRange body i k s = Done s' →
  body (i + k)%nat s' = Abort e →
  forRange body i n s = Abort e.
Proof.
  intros Hk Hprefix Hfail.
  replace n with (k + Datatypes.S (n - k - 1))%nat by lia.
  rewrite forRange_app, Hprefix. simpl. by rewrite Hfail.
Qed.

(** A loop that finishes has run its body with success at every index. *)
Lemma forRange_Done_steps body i n s s' :
  forRange body i n s = Done s' →
  ∀ k, (k < n)%nat → ∃ s1 s2, body (i + k)%nat s1 = Done s2.
Proof.
  revert i s. induction n as [|n IH]; intros i s Hdone k Hk; [lia|].
  simpl in Hdone. destruct (body i s) as [s1|e] eqn:Hstep; [|done].
  simpl in Hdone. destruct k as [|k].
  - exists s, s1. by rewrite Nat.add_0_r.
  - destruct (IH _ _ Hdone k ltac:(lia)) as (s2 & s3 & Hk').
    exists s2, s3. by replace (i + Datatypes.S k)%nat with (Datatypes.S i + k)%nat by lia.
Qed.

End LoopOutcomes.

Section LoopOutcomes2.
Context {S : Type}.
Implicit Types (body : nat → S → outcome S).

Lemma forRange_all_Done body i n s :
  (∀ j s, (j < n)%nat → ∃ s', body (i + j)%nat s = Done s') →
  ∃ s', forRange body i n s = Done s'.
Proof.
  revert i s. induction n as [|n IH]; intros i s Hsteps; simpl; [by eexists|].
  destruct (Hsteps 0%nat s ltac:(lia)) as [s1 Hs1].
  rewrite Nat.add_0_r in Hs1. rewrite Hs1. simpl.
  apply IH. intros j s2 Hj.
  replace (Datatypes.S i + j)%nat with (i + Datatypes.S j)%nat by lia.
  apply Hsteps. lia.
Qed.

Lemma forRange_first_failure body n k s e :
  (k < n)%nat →
  (∀ j s, (j < k)%nat → ∃ s', body j s = Done s') →
  (∀ s, body k s = Abort e) →
  forRange body 0 n s = Abort e.
Proof.
  intros Hk Hprefix Hfail.
  destruct (forRange_all_Done body 0 k s) as [s' Hs']; [done|].
  eapply forRange_abort_at; [done..|]. apply Hfail.
Qed.

End LoopOutcomes2.

Section Outcomes.
Context {configuration : Configuration}.
Context {ohlc : Ohlc} {commons : Commons}.
Context {LeastSquares : Type} {linear : Linear LeastSquares}.
Implicit Types (features : list (list float64)) (labels : list float64).
Implicit Types (model : LeastSquares) (symbol : string).

Lemma predict1_is_Some model f :
  is_Some (predict1 model f) ↔
  ∃ prediction p, Predict model f = Some prediction ∧ prediction !! 0%nat = Some p.
Proof.
  unfold predict1. destruct (Predict model f) as [prediction|]; simpl.
  - rewrite head_lookup. split.
    + intros [p Hp]. by exists prediction, p.
    + intros (? & p & [= <-] & Hp). by exists p.
  - split; [by intros [? ?]|by intros (? & ? & ? & _)].
Qed.

Lemma predict1_None model f :
  predict1 model f = None ↔
  Predict model f = None ∨ Predict model f = Some [].
Proof.
  unfold predict1. destruct (Predict model f) as [[|p prediction]|]; simpl;
    split; try done; try (by left); try (by right); by intros [|].
Qed.

(** [getR2Score] returns a score exactly when there is a label for every
    feature vector and the model predicts every feature vector. *)
Lemma getR2Score_is_Done features labels model :
  (∃ r2Score, getR2Score features labels model = Done r2Score) ↔
  (length features ≤ length labels)%nat ∧
  Forall (λ f, is_Some (predict1 model f)) features.
Proof.
  unfold getR2Score. split.
  - intros [r2Score Hdone].
    destruct (forRange _ 0 (length features) (Zero, Zero)) as [sums|] eqn:Hrun;
      [|done].
    pose proof (forRange_Done_steps _ _ _ _ _ Hrun) as Hsteps. clear Hrun Hdone.
    assert (∀ k f, features !! k = Some f →
              is_Some (labels !! k) ∧ is_Some (predict1 model f)) as Hstep.
    { intros k f Hf.
      destruct (Hsteps k (lookup_lt_Some _ _ _ Hf)) as ([rs ts] & s2 & Hbody).
      simpl in Hbody. unfold index in Hbody. rewrite Hf in Hbody.
      destruct (labels !! k) as [label|]; [|done]. simpl in Hbody.
      split; [by eexists|]. apply predict1_is_Some.
      destruct (Predict model f) as [prediction|]; [|done]. simpl in Hbody.
      destruct (prediction !! 0%nat) as [p|] eqn:Hp; [|done].
      by exists prediction, p. }
    split.
    + destruct (decide (length features ≤ length labels)%nat) as [|Hgt]; [done|].
      destruct (lookup_lt_is_Some_2 features (length labels)) as [f Hf]; [lia|].
      destruct (Hstep _ _ Hf) as [[label Hl] _].
      apply lookup_lt_Some in Hl. lia.
    + apply Forall_lookup. intros k f Hf. by apply (Hstep k f).
  - intros [Hlen Hpred].
    destruct (forRange_all_Done
                (λ i '(residualSum, totalSum),
                   label ← index labels i;
                   f ← index features i;
                   prediction ← orFatal PredictionFailed (Predict model f);
                   prediction0 ← index prediction 0;
                   Done ((residualSum + (label - prediction0) * (label - prediction0))%F,
                         (totalSum + (label - Mean labels) * (label - Mean labels))%F))
                0 (length features) (Zero, Zero)) as [[rs ts] Hrun].
    { intros j [rs ts] Hj. simpl.
      destruct (lookup_lt_is_Some_2 features j Hj) as [f Hf].
      destruct (lookup_lt_is_Some_2 labels j ltac:(lia)) as [label Hl].
      rewrite Forall_lookup in Hpred.
      pose proof (Hpred j f Hf) as Hp. apply predict1_is_Some in Hp.
      destruct Hp as (prediction & p & Hpr & Hp).
      unfold index. rewrite Hl, Hf. simpl. rewrite Hpr. simpl. rewrite Hp. simpl.
      by eexists. }
    rewrite Hrun. simpl. by eexists.
Qed.

(** X8. [getR2Score] returns a score exactly when there is a label for
    every feature vector and the model predicts every feature vector.
    Otherwise it stops at the first index that fails: with an
    index-out-of-range panic when the label is missing, with the fatal
    "Prediction failed" when the label is there and [Predict] returns an
    error, and with a panic when [Predict] returns an empty slice. *)
Theorem getR2Score_outcome features labels model :
  ((∃ r2Score, getR2Score features labels model = Done r2Score) ↔
   (length features ≤ length labels)%nat ∧
   Forall (λ f, is_Some (predict1 model f)) features) ∧
  (∀ k f,
      features !! k = Some f →
      (k ≤ length labels)%nat →
      Forall (λ f, is_Some (predict1 model f)) (take k features) →
      (labels !! k = None →
       getR2Score features labels model = Abort IndexOutOfRange) ∧
      (is_Some (labels !! k) → Predict model f = None →
       getR2Score features labels model = Abort PredictionFailed) ∧
      (is_Some (labels !! k) → Predict model f = Some [] →
       getR2Score features labels model = Abort IndexOutOfRange)).
Proof.
  split; [apply getR2Score_is_Done|].
  intros k f Hf Hk Hprefix.
  pose proof (lookup_lt_Some _ _ _ Hf) as Hkf.
  assert (∀ j (s : float64 * float64), (j < k)%nat →
            ∃ s', (let '(residualSum, totalSum) := s in
                   label ← index labels j;
                   f ← index features j;
                   prediction ← orFatal PredictionFailed (Predict model f);
                   prediction0 ← index prediction 0;
                   Done ((residualSum + (label - prediction0) * (label - prediction0))%F,
                         (totalSum + (label - Mean labels) * (label - Mean labels))%F))
                  = Done s') as Hok.
  { intros j [rs ts] Hj.
    destruct (lookup_lt_is_Some_2 features j ltac:(lia)) as [fj Hfj].
    destruct (lookup_lt_is_Some_2 labels j ltac:(lia)) as [label Hl].
    rewrite Forall_lookup in Hprefix.
    assert (take k features !! j = Some fj) as Htake
      by (by rewrite lookup_take_lt).
    apply Hprefix, predict1_is_Some in Htake as (prediction & p & Hpr & Hp).
    unfold index. rewrite Hl, Hfj. simpl. rewrite Hpr. simpl. rewrite Hp. simpl.
    by eexists. }
  unfold getR2Score. split; [|split].
  - intros Hl.
    rewrite (forRange_first_failure _ (length features) k _ IndexOutOfRange);
      [done..|].
    intros [rs ts]. unfold index. by rewrite Hl.
  - intros [label Hl] Hpr.
    rewrite (forRange_first_failure _ (length features) k _ PredictionFailed);
      [done..|].
    intros [rs ts]. unfold index. rewrite Hl, Hf. simpl. by rewrite Hpr.
  - intros [label Hl] Hpr.
    rewrite (forRange_first_failure _ (length features) k _ IndexOutOfRange);
      [done..|].
    intros [rs ts]. unfold index. rewrite Hl, Hf. simpl. by rewrite Hpr.
Qed.

Lemma runBacktest_is_Done features labels model :
  (∃ streams, runBacktest features labels model = Done streams) ↔
  (length features ≤ length labels)%nat ∧
  Forall (λ f, is_Some (predict1 model f)) features.
Proof.
  unfold runBacktest. split.
  - intros [streams Hrun].
    pose proof (forRange_Done_steps _ _ _ _ _ Hrun) as Hsteps. clear Hrun.
    assert (∀ k f, features !! k = Some f →
              is_Some (labels !! k) ∧ is_Some (predict1 model f)) as Hstep.
    { intros k f Hf.
      destruct (Hsteps k (lookup_lt_Some _ _ _ Hf)) as ([ls ss] & s2 & Hbody).
      simpl in Hbody. unfold index in Hbody. rewrite Hf in Hbody. simpl in Hbody.
      destruct (Predict model f) as [prediction|] eqn:Hpr; [|done].
      simpl in Hbody.
      destruct (prediction !! 0%nat) as [p|] eqn:Hp; [|done]. simpl in Hbody.
      destruct (labels !! k) as [label|]; [|done].
      split; [by eexists|]. apply predict1_is_Some. by exists prediction, p. }
    split.
    + destruct (decide (length features ≤ length labels)%nat) as [|Hgt]; [done|].
      destruct (lookup_lt_is_Some_2 features (length labels)) as [f Hf]; [lia|].
      destruct (Hstep _ _ Hf) as [[label Hl] _].
      apply lookup_lt_Some in Hl. lia.
    + apply Forall_lookup. intros k f Hf. by apply (Hstep k f).
  - intros [Hlen Hpred]. apply forRange_all_Done.
    intros j [ls ss] Hj. simpl.
    destruct (lookup_lt_is_Some_2 features j Hj) as [f Hf].
    destruct (lookup_lt_is_Some_2 labels j ltac:(lia)) as [label Hl].
    rewrite Forall_lookup in Hpred.
    pose proof (Hpred j f Hf) as Hp. apply predict1_is_Some in Hp.
    destruct Hp as (prediction & p & Hpr & Hp).
    unfold index. rewrite Hf. simpl. rewrite Hpr. simpl. rewrite Hp. simpl.
    rewrite Hl. simpl. by eexists.
Qed.

(** X9. [runBacktest] returns its two streams exactly when there is a
    label for every feature vector and the model predicts every feature
    vector.  Otherwise it stops at the first index that fails, and there
    the prediction is looked at before the label: a [Predict] error is the
    fatal "Prediction failed" whether or not the label exists, an empty
    prediction is a panic, and a missing label is a panic only when the
    prediction succeeded. *)
Theorem runBacktest_outcome features labels model :
  ((∃ streams, runBacktest features labels model = Done streams) ↔
   (length features ≤ length labels)%nat ∧
   Forall (λ f, is_Some (predict1 model f)) features) ∧
  (∀ k f,
      features !! k = Some f →
      (k ≤ length labels)%nat →
      Forall (λ f, is_Some (predict1 model f)) (take k features) →
      (Predict model f = None →
       runBacktest features labels model = Abort PredictionFailed) ∧
      (Predict model f = Some [] →
       runBacktest features labels model = Abort IndexOutOfRange) ∧
      (is_Some (predict1 model f) → labels !! k = None →
       runBacktest features labels model = Abort IndexOutOfRange)).
Proof.
  split; [apply runBacktest_is_Done|].
  intros k f Hf Hk Hprefix.
  pose proof (lookup_lt_Some _ _ _ Hf) as Hkf.
  assert (∀ j (s : list float64 * list float64), (j < k)%nat →
            ∃ s', (let '(longReturns, shortReturns) := s in
                   f ← index features j;
                   prediction ← orFatal PredictionFailed (Predict model f);
                   signal ← index prediction 0;
                   label ← index labels j;
                   Done (if (signal >? LongThreshold)%F
                         then longReturns ++ [label] else longReturns ++ [Zero],
                         if (signal <? ShortThreshold)%F
                         then shortReturns ++ [(One / (One + label) - One)%F]
                         else shortReturns ++ [Zero]))
                  = Done s') as Hok.
  { intros j [ls ss] Hj.
    destruct (lookup_lt_is_Some_2 features j ltac:(lia)) as [fj Hfj].
    destruct (lookup_lt_is_Some_2 labels j ltac:(lia)) as [label Hl].
    rewrite Forall_lookup in Hprefix.
    assert (take k features !! j = Some fj) as Htake
      by (by rewrite lookup_take_lt).
    apply Hprefix, predict1_is_Some in Htake as (prediction & p & Hpr & Hp).
    unfold index. rewrite Hfj. simpl. rewrite Hpr. simpl. rewrite Hp. simpl.
    rewrite Hl. simpl. by eexists. }
  unfold runBacktest. split; [|split].
  - intros Hpr.
    rewrite (forRange_first_failure _ (length features) k _ PredictionFailed);
      [done..|].
    intros [ls ss]. unfold index. rewrite Hf. simpl. by rewrite Hpr.
  - intros Hpr.
    rewrite (forRange_first_failure _ (length features) k _ IndexOutOfRange);
      [done..|].
    intros [ls ss]. unfold index. rewrite Hf. simpl. by rewrite Hpr.
  - intros (prediction & p & Hpr & Hp)%predict1_is_Some Hl.
    rewrite (forRange_first_failure _ (length features) k _ IndexOutOfRange);
      [done..|].
    intros [ls ss]. unfold index. rewrite Hf. simpl. rewrite Hpr. simpl.
    rewrite Hp. simpl. by rewrite Hl.
Qed.

(** *** The parameter cells and the row *)

Lemma addParameter_cell model (i : nat) (row : list string) :
  addParameter model i row =
  parameter ← index (Parameters model) i; Done (row ++ [parameterCell parameter]).
Proof. done. Qed.

Lemma foldl_parameterCells (parameters : list float64) (row : list string) :
  foldl (λ row parameter, row ++ [parameterCell parameter]) row parameters
  = row ++ (parameterCell <$> parameters).
Proof.
  revert row. induction parameters as [|x xs IH]; intros row; simpl.
  - by rewrite app_nil_r.
  - by rewrite IH, <- app_assoc.
Qed.

(** The loop over the feature weights, [for j := 1; j < len(model.Parameters); j++]. *)
Lemma addParameter_weights model (row : list string) :
  forRange (addParameter model) 1 (length (Parameters model) - 1) row
  = Done (row ++ (parameterCell <$> drop 1 (Parameters model))).
Proof.
  replace (length (Parameters model) - 1)%nat
    with (length (drop 1 (Parameters model))) by (rewrite length_drop; lia).
  rewrite (forRange_foldl _ (λ row parameter, row ++ [parameterCell parameter])).
  - by rewrite foldl_parameterCells.
  - intros k x row' Hk. rewrite lookup_drop in Hk.
    rewrite addParameter_cell. unfold index. by rewrite Hk.
Qed.

Lemma addReturns_returnCells (returns : list float64) (row : list string) :
  addReturns returns row = row ++ returnCells returns.
Proof.
  unfold returnCells, addReturns.
  destruct (analyzeReturns returns) as [totalReturn sharpeRatio].
  by destruct (totalReturn !=? Zero)%F.
Qed.

Lemma returnCells_length (returns : list float64) :
  length (returnCells returns) = 2%nat.
Proof.
  unfold returnCells, addReturns.
  destruct (analyzeReturns returns) as [totalReturn sharpeRatio].
  by destruct (totalReturn !=? Zero)%F.
Qed.

(** [getRegressionCells] step by step, for a fit that succeeded with a
    non-empty parameter vector. *)
Lemma getRegressionCells_fitted symbol startDate referenceMap indexMap
    model intercept weights :
  let p := forDates symbol (loadDailyRecords symbol startDate true false)
             referenceMap indexMap StartDate noExamples in
  Learn (NewLeastSquares logisticMethod alpha regularization maxIterations
           (trainingFeatures p) (trainingLabels p)) = Some model →
  Parameters model = intercept :: weights →
  getRegressionCells symbol startDate referenceMap indexMap =
  isR2Score ← getR2Score (trainingFeatures p) (trainingLabels p) model;
  oosR2Score ← getR2Score (testFeatures p) (testLabels p) model;
  '(longReturns, shortReturns) ← runBacktest (testFeatures p) (testLabels p) model;
  Done {| cells :=
            [White symbol] ++ (parameterCell <$> weights) ++
            [parameterCell intercept; FormatPercentage isR2Score 2;
             FormatPercentage oosR2Score 2] ++
            returnCells longReturns ++ returnCells shortReturns;
          oosR2Score := oosR2Score |}.
Proof.
  intros p Hfit Hparams. unfold getRegressionCells. fold p. rewrite Hfit. simpl.
  rewrite addParameter_weights. simpl.
  rewrite addParameter_cell, Hparams. simpl.
  destruct (getR2Score (trainingFeatures p) _ model) as [isR2Score|]; [|done].
  simpl.
  destruct (getR2Score (testFeatures p) _ model) as [oos|]; [|done]. simpl.
  destruct (runBacktest _ _ model) as [[longReturns shortReturns]|]; [|done].
  simpl. do 2 f_equal. unfold addR2Score.
  rewrite !addReturns_returnCells, drop_0. simpl.
  by rewrite <- !app_assoc.
Qed.

End Outcomes.

Section Rows.
Context {configuration : Configuration}.
Context {ohlc : Ohlc} {commons : Commons}.
Context {LeastSquares : Type} {linear : Linear LeastSquares}.
Implicit Types (symbol : string) (referenceMap indexMap : timePriceMap).
Implicit Types (model : LeastSquares).

Lemma forDates_aligned symbol assetMap referenceMap indexMap :
  let p := forDates symbol assetMap referenceMap indexMap StartDate noExamples in
  length (trainingLabels p) = length (trainingFeatures p) ∧
  length (testLabels p) = length (testFeatures p).
Proof.
  intros p. subst p. rewrite forDates_foldl.
  destruct (foldl_dateStep symbol assetMap referenceMap indexMap
              (dates StartDate EndDate) noExamples) as (-> & -> & -> & ->).
  simpl. by rewrite !length_fmap.
Qed.

(** X10. For one asset the row is produced exactly when the fit
    succeeds, the fitted model has at least one parameter, and the model
    predicts every feature vector of the training and of the test
    partition.  A fit error is the fatal "Failed to fit model"; a model
    without parameters is an index-out-of-range panic when the intercept
    is read. *)
Theorem getRegressionCells_outcome symbol startDate referenceMap indexMap :
  let p := forDates symbol (loadDailyRecords symbol startDate true false)
             referenceMap indexMap StartDate noExamples in
  let fit := Learn (NewLeastSquares logisticMethod alpha regularization
                      maxIterations (trainingFeatures p) (trainingLabels p)) in
  (fit = None →
   getRegressionCells symbol startDate referenceMap indexMap = Abort FitFailed) ∧
  (∀ model, fit = Some model → Parameters model = [] →
   getRegressionCells symbol startDate referenceMap indexMap
   = Abort IndexOutOfRange) ∧
  ((∃ data, getRegressionCells symbol startDate referenceMap indexMap = Done data) ↔
   ∃ model, fit = Some model ∧ Parameters model ≠ [] ∧
     Forall (λ f, is_Some (predict1 model f))
            (trainingFeatures p ++ testFeatures p)).
Proof.
  intros p fit.
  destruct (forDates_aligned symbol (loadDailyRecords symbol startDate true false)
              referenceMap indexMap) as [Htrain Htest].
  fold p in Htrain, Htest.
  split; [|split; [|split]].
  - intros Hfit. unfold getRegressionCells. fold p fit. by rewrite Hfit.
  - intros model Hfit Hparams. unfold getRegressionCells. fold p fit.
    rewrite Hfit. simpl. rewrite addParameter_weights. simpl.
    rewrite addParameter_cell, Hparams. done.
  - intros [data Hdone].
    destruct fit as [model|] eqn:Hfit.
    2:{ unfold getRegressionCells in Hdone. fold p fit in Hdone.
        by rewrite Hfit in Hdone. }
    exists model. split; [done|].
    destruct (Parameters model) as [|intercept weights] eqn:Hparams.
    { unfold getRegressionCells in Hdone. fold p fit in Hdone.
      rewrite Hfit in Hdone. simpl in Hdone.
      rewrite addParameter_weights in Hdone. simpl in Hdone.
      by rewrite addParameter_cell, Hparams in Hdone. }
    split; [done|].
    rewrite (getRegressionCells_fitted _ _ _ _ model intercept weights Hfit Hparams)
      in Hdone.
    fold p in Hdone.
    destruct (getR2Score (trainingFeatures p) _ model) as [isR2Score|] eqn:His;
      [|done].
    simpl in Hdone.
    destruct (getR2Score (testFeatures p) _ model) as [oos|] eqn:Hoos; [|done].
    apply Forall_app. split.
    + by apply (getR2Score_is_Done (trainingFeatures p) (trainingLabels p)); eexists.
    + by apply (getR2Score_is_Done (testFeatures p) (testLabels p)); eexists.
  - intros (model & Hfit & Hparams & [Htr Hte]%Forall_app).
    destruct (Parameters model) as [|intercept weights] eqn:Hp; [done|].
    rewrite (getRegressionCells_fitted _ _ _ _ model intercept weights Hfit Hp).
    fold p.
    destruct (proj2 (getR2Score_is_Done (trainingFeatures p) (trainingLabels p) model))
      as [isR2Score ->]; [split; [lia|done]|].
    destruct (proj2 (getR2Score_is_Done (testFeatures p) (testLabels p) model))
      as [oos ->]; [split; [lia|done]|].
    destruct (proj2 (runBacktest_is_Done (testFeatures p) (testLabels p) model))
      as [[longReturns shortReturns] ->]; [split; [lia|done]|].
    simpl. by eexists.
Qed.

Lemma header_length : length header = (featureCount + 8)%nat.
Proof.
  unfold header, featureCount.
  destruct EnableMomentum, EnableReference, EnableIndex, EnableWeekdays;
    reflexivity.
Qed.

(** X11. The layout of a row: the symbol, one cell per feature weight
    (parameters 1, 2, ...), the intercept (parameter 0), the in-sample and
    the out-of-sample R², then the two cells of the long stream and the
    two cells of the short stream.  A row has eight cells more than the
    model has feature weights, and it has as many cells as the header has
    columns exactly when the model has one weight per feature. *)
Theorem getRegressionCells_row symbol startDate referenceMap indexMap data :
  getRegressionCells symbol startDate referenceMap indexMap = Done data →
  let p := forDates symbol (loadDailyRecords symbol startDate true false)
             referenceMap indexMap StartDate noExamples in
  ∃ model intercept weights isR2Score longReturns shortReturns,
    Learn (NewLeastSquares logisticMethod alpha regularization maxIterations
             (trainingFeatures p) (trainingLabels p)) = Some model ∧
    Parameters model = intercept :: weights ∧
    getR2Score (trainingFeatures p) (trainingLabels p) model = Done isR2Score ∧
    getR2Score (testFeatures p) (testLabels p) model = Done (oosR2Score data) ∧
    runBacktest (testFeatures p) (testLabels p) model
      = Done (longReturns, shortReturns) ∧
    cells data =
      [White symbol] ++ (parameterCell <$> weights) ++
      [parameterCell intercept; FormatPercentage isR2Score 2;
       FormatPercentage (oosR2Score data) 2] ++
      returnCells longReturns ++ returnCells shortReturns ∧
    length (cells data) = (length weights + 8)%nat ∧
    (length (cells data) = length header ↔ length weights = featureCount).
Proof.
  intros Hdone p.
  destruct (Learn (NewLeastSquares logisticMethod alpha regularization maxIterations
                     (trainingFeatures p) (trainingLabels p)))
    as [model|] eqn:Hfit.
  2:{ unfold getRegressionCells in Hdone. fold p in Hdone.
      by rewrite Hfit in Hdone. }
  destruct (Parameters model) as [|intercept weights] eqn:Hparams.
  { unfold getRegressionCells in Hdone. fold p in Hdone.
    rewrite Hfit in Hdone. simpl in Hdone.
    rewrite addParameter_weights in Hdone. simpl in Hdone.
    by rewrite addParameter_cell, Hparams in Hdone. }
  rewrite (getRegressionCells_fitted _ _ _ _ model intercept weights Hfit Hparams)
    in Hdone.
  fold p in Hdone.
  destruct (getR2Score (trainingFeatures p) _ model) as [isR2Score|] eqn:His;
    [|done].
  simpl in Hdone.
  destruct (getR2Score (testFeatures p) _ model) as [oos|] eqn:Hoos; [|done].
  simpl in Hdone.
  destruct (runBacktest _ _ model) as [[longReturns shortReturns]|] eqn:Hrun;
    [|done].
  simpl in Hdone. injection Hdone as <-.
  exists model, intercept, weights, isR2Score, longReturns, shortReturns.
  do 5 (split; [done|]). split; [done|].
  assert (length (cells {|
            cells := [White symbol] ++ (parameterCell <$> weights) ++
                     [parameterCell intercept; FormatPercentage isR2Score 2;
                      FormatPercentage oos 2] ++
                     returnCells longReturns ++ returnCells shortReturns;
            oosR2Score := oos |}) = (length weights + 8)%nat) as Hlen.
  { simpl. rewrite !length_app, length_fmap. simpl.
    rewrite !length_app, !returnCells_length. lia. }
  split; [exact Hlen|]. simpl in Hlen |- *. rewrite Hlen, header_length. lia.
Qed.

Lemma padAlignments_replicate (columns : list string) (alignments : list Align) :
  padAlignments columns alignments
  = alignments ++ replicate (length columns - length alignments) AlignRight.
Proof.
  remember (length columns - length alignments)%nat as n eqn:Hn.
  revert alignments Hn. induction n as [|n IH]; intros alignments Hn.
  - rewrite padAlignments_equation_1.
    destruct (decide (length alignments < length columns)%nat); [lia|].
    simpl. by rewrite app_nil_r.
  - rewrite padAlignments_equation_1.
    destruct (decide (length alignments < length columns)%nat); [|lia].
    simpl. rewrite IH by (rewrite length_app; simpl; lia).
    by rewrite <- app_assoc.
Qed.

(** X12. The header has one column for the symbol, one per enabled
    feature (seven for the weekdays) and seven for the intercept, the two
    R² scores and the four backtest figures; there is one alignment per
    column, the default for the symbol and right for all the others. *)
Theorem header_columns :
  length header = (featureCount + 8)%nat ∧
  head header = Some "Symbol" ∧
  length alignments = length header ∧
  alignments = AlignDefault :: replicate (featureCount + 7) AlignRight.
Proof.
  split; [apply header_length|]. split.
  { unfold header.
    by destruct EnableMomentum, EnableReference, EnableIndex, EnableWeekdays. }
  unfold alignments. rewrite padAlignments_replicate, header_length. simpl.
  rewrite length_replicate. split; [lia|].
  do 2 f_equal. lia.
Qed.

Lemma ParallelMap_Done {A B} (f : A → outcome B) (l : list A) (bs : list B) :
  ParallelMap f l = Done bs ↔ Forall2 (λ a b, f a = Done b) l bs.
Proof.
  revert bs. induction l as [|a l IH]; intros bs; simpl.
  - split; [intros [= <-]; constructor|by intros ->%Forall2_nil_inv_l].
  - destruct (f a) as [b|e] eqn:Hfa; simpl.
    + destruct (ParallelMap f l) as [bs'|e]; simpl.
      * split.
        -- intros [= <-]. constructor; [done|]. by apply IH.
        -- intros (b' & bs'' & Hb & Hbs & ->)%Forall2_cons_inv_l.
           apply IH in Hbs. congruence.
      * split; [done|].
        intros (b' & bs'' & Hb & Hbs & ->)%Forall2_cons_inv_l.
        by apply IH in Hbs.
    + split; [done|].
      intros (b' & bs'' & Hb & Hbs & ->)%Forall2_cons_inv_l. congruence.
Qed.

Lemma ParallelMap_Abort {A B} (f : A → outcome B) (l : list A) a e :
  a ∈ l → f a = Abort e → ∃ e', ParallelMap f l = Abort e'.
Proof.
  intros Hin Hfa. destruct (ParallelMap f l) as [bs|e'] eqn:Hrun; [|by eexists].
  apply ParallelMap_Done in Hrun.
  apply list_elem_of_lookup in Hin as [i Hi].
  destruct (Forall2_lookup_l _ _ _ _ _ Hrun Hi) as (b & _ & Hb). congruence.
Qed.

(** X13. When [analyzeData] completes, the report has one row per
    configured asset, in the order of the configuration, each the row
    that [getRegressionCells] returns for that asset, and the median is
    taken over the out-of-sample scores in the same order.  When the
    pipeline of any asset ends in a fatal error or a panic, so does the
    whole run.  With no asset configured the report has no row. *)
Theorem analyzeData_rows :
  let run := λ asset : Asset.t,
    getRegressionCells (Asset.Symbol asset) (Asset.StartDate asset)
      (loadDailyRecords bitcoinSymbol None true false)
      (loadDailyRecords IndexSymbol None false true) in
  (∀ rows medianR2Score,
      analyzeData = Done (rows, medianR2Score) →
      ∃ data,
        Forall2 (λ asset d, run asset = Done d) Assets data ∧
        rows = cells <$> data ∧
        length rows = length Assets ∧
        medianR2Score = Median (oosR2Score <$> data)) ∧
  (∀ asset e, asset ∈ Assets → run asset = Abort e →
              ∃ e', analyzeData = Abort e') ∧
  (Assets = [] → analyzeData = Done ([], Median [])).
Proof.
  intros run. split; [|split].
  - intros rows medianR2Score. unfold analyzeData. fold run.
    destruct (ParallelMap run Assets) as [data|] eqn:Hrun; [|done]. simpl.
    rewrite foldl_rows. simpl. intros [= <- <-].
    apply ParallelMap_Done in Hrun. exists data.
    split; [done|]. split; [done|]. split; [|done].
    rewrite length_fmap. symmetry. by eapply Forall2_length.
  - intros asset e Hin Hfail. unfold analyzeData. fold run.
    destruct (ParallelMap_Abort run Assets asset e Hin Hfail) as [e' ->].
    by exists e'.
  - intros Hnone. unfold analyzeData. by rewrite Hnone.
Qed.

End Rows.

Lemma getR2Score_outcome_witness :
  getR2Score (commons:=Sample.commons) (linear:=Sample.linear)
    [[One]] [] [Zero; One] = Abort IndexOutOfRange.
Proof.
  apply (proj1 (proj2 (getR2Score_outcome (commons:=Sample.commons)
                         (linear:=Sample.linear) [[One]] [] [Zero; One])
                  0%nat [One] eq_refl (le_n 0) (Forall_nil_2 _))).
  reflexivity.
Defined.

Lemma runBacktest_outcome_witness :
  runBacktest (configuration:=Sample.configuration) (linear:=Sample.linear)
    [[One]] [] [Zero] = Abort PredictionFailed.
Proof.
  apply (proj1 (proj2 (runBacktest_outcome (configuration:=Sample.configuration)
                         (linear:=Sample.linear) [[One]] [] [Zero])
                  0%nat [One] eq_refl (le_n 0) (Forall_nil_2 _))).
  reflexivity.
Defined.

Lemma getRegressionCells_outcome_witness :
  ∃ model : list float64,
    @Learn _ Sample.linear
      (@NewLeastSquares _ Sample.linear logisticMethod alpha regularization
         maxIterations [Sample.example101.1] [Sample.example101.2]) = Some model ∧
    @Parameters _ Sample.linear model ≠ [].
Proof.
  destruct (proj1 (proj2 (proj2
              (getRegressionCells_outcome (configuration:=Sample.configuration)
                 (ohlc:=Sample.ohlc) (commons:=Sample.commons)
                 (linear:=Sample.linear)
                 "ETHUSDT" None Sample.referenceMap Sample.indexMap))))
    as (model & Hfit & Hparams & _).
  - eexists. vm_compute. reflexivity.
  - exists model. split; [|exact Hparams].
    etransitivity; [|exact Hfit]. vm_compute. reflexivity.
Defined.

Lemma getRegressionCells_row_witness :
  ∃ data,
    getRegressionCells (configuration:=Sample.configuration) (ohlc:=Sample.ohlc)
      (commons:=Sample.commons) (linear:=Sample.linear)
      "ETHUSDT" None Sample.referenceMap Sample.indexMap = Done data ∧
    length (cells data) = length (header (configuration:=Sample.configuration)).
Proof.
  eexists. split; [vm_compute; reflexivity|].
  destruct (getRegressionCells_row (configuration:=Sample.configuration)
              (ohlc:=Sample.ohlc) (commons:=Sample.commons) (linear:=Sample.linear)
              "ETHUSDT" None Sample.referenceMap Sample.indexMap _
              ltac:(vm_compute; reflexivity))
    as (model & intercept & weights & isR2Score & longReturns & shortReturns &
        _ & _ & _ & _ & _ & _ & Hlen & _).
  vm_compute. reflexivity.
Defined.

Lemma analyzeData_rows_witness :
  ∃ rows medianR2Score,
    analyzeData (configuration:=Sample.configuration) (ohlc:=Sample.ohlc)
      (commons:=Sample.commons) (linear:=Sample.linear)
    = Done (rows, medianR2Score) ∧
    length rows = 1%nat.
Proof.
  eexists _, _. split; [vm_compute; reflexivity|].
  destruct (proj1 (analyzeData_rows (configuration:=Sample.configuration)
                     (ohlc:=Sample.ohlc) (commons:=Sample.commons)
                     (linear:=Sample.linear)) _ _
              ltac:(vm_compute; reflexivity))
    as (data & _ & _ & Hlen & _).
  exact Hlen.
Defined.

(** ** More on the backtest and the cells *)

Section Signals.
Context {configuration : Configuration}.
Context {ohlc : Ohlc} {commons : Commons}.
Context {LeastSquares : Type} {linear : Linear LeastSquares}.
Implicit Types (features : list (list float64)) (labels predictions : list float64).
Implicit Types (model : LeastSquares) (returns : list float64).

Lemma SFltb_nan_l x : (NaN <? x)%F = false.
Proof. by destruct x. Qed.

Lemma SFltb_nan_r x : (x <? NaN)%F = false.
Proof. by destruct x as [[]|[]| |[] m e]. Qed.

(** X14. The two stances are independent.  A NaN prediction trades in
    neither stream, and a NaN threshold disables its stream altogether;
    a prediction above the long threshold and below the short threshold
    (possible when the thresholds cross) trades in both streams in the
    same period. *)
Theorem runBacktest_signal_cases features labels model predictions :
  length labels = length features →
  mapM (predict1 model) features = Some predictions →
  ∃ longReturns shortReturns,
    runBacktest features labels model = Done (longReturns, shortReturns) ∧
    (∀ i, predictions !! i = Some NaN →
          longReturns !! i = Some Zero ∧ shortReturns !! i = Some Zero) ∧
    (LongThreshold = NaN → ∀ i, (i < length features)%nat →
          longReturns !! i = Some Zero) ∧
    (ShortThreshold = NaN → ∀ i, (i < length features)%nat →
          shortReturns !! i = Some Zero) ∧
    (∀ i p l,
        predictions !! i = Some p → labels !! i = Some l →
        (p >? LongThreshold)%F = true → (p <? ShortThreshold)%F = true →
        longReturns !! i = Some l ∧
        shortReturns !! i = Some (One / (One + l) - One)%F).
Proof.
  intros Hlen Hpred.
  pose proof (Forall2_length _ _ _ (mapM_Some_1 _ _ _ Hpred)) as Hlen'.
  eexists _, _. split; [by apply runBacktest_zip|].
  assert (∀ i, (i < length features)%nat →
            ∃ p l, predictions !! i = Some p ∧ labels !! i = Some l) as Hboth.
  { intros i Hi.
    destruct (lookup_lt_is_Some_2 predictions i ltac:(lia)) as [p Hp].
    destruct (lookup_lt_is_Some_2 labels i ltac:(lia)) as [l Hl].
    by exists p, l. }
  split; [|split; [|split]].
  - intros i Hp.
    destruct (Hboth i) as (p & l & Hp' & Hl).
    { apply lookup_lt_Some in Hp. lia. }
    split; apply lookup_zip_with_Some; exists NaN, l;
      by rewrite ?SFltb_nan_l, ?SFltb_nan_r.
  - intros Hnan i Hi. destruct (Hboth i Hi) as (p & l & Hp & Hl).
    apply lookup_zip_with_Some. exists p, l.
    by rewrite Hnan, SFltb_nan_l.
  - intros Hnan i Hi. destruct (Hboth i Hi) as (p & l & Hp & Hl).
    apply lookup_zip_with_Some. exists p, l.
    by rewrite Hnan, SFltb_nan_r.
  - intros i p l Hp Hl Hlong Hshort.
    split; apply lookup_zip_with_Some; exists p, l; by rewrite ?Hlong, ?Hshort.
Qed.

Lemma foldl_add_zeros returns :
  Forall (λ r, r = Zero) returns →
  foldl (λ totalReturn r, (totalReturn + r)%F) Zero returns = Zero.
Proof.
  induction returns as [|r returns IH] using rev_ind; [done|].
  intros [Hrs Hr]%Forall_app. rewrite Forall_singleton in Hr.
  by rewrite foldl_snoc, IH, Hr.
Qed.

(** X15. A stance that never trades shows placeholders: when no
    prediction exceeds the long threshold, the long stream is all 0.0 and
    its two cells are "-"; likewise for the short stream when no
    prediction is below the short threshold. *)
Theorem runBacktest_never_trades features labels model predictions :
  length labels = length features →
  mapM (predict1 model) features = Some predictions →
  ∃ longReturns shortReturns,
    runBacktest features labels model = Done (longReturns, shortReturns) ∧
    ((∀ p, p ∈ predictions → (p >? LongThreshold)%F = false) →
     longReturns = replicate (length features) Zero ∧
     returnCells longReturns = ["-"; "-"]) ∧
    ((∀ p, p ∈ predictions → (p <? ShortThreshold)%F = false) →
     shortReturns = replicate (length features) Zero ∧
     returnCells shortReturns = ["-"; "-"]).
Proof.
  intros Hlen Hpred.
  pose proof (Forall2_length _ _ _ (mapM_Some_1 _ _ _ Hpred)) as Hlen'.
  assert (∀ (stance : float64 → float64 → float64),
            (∀ p l, p ∈ predictions → stance p l = Zero) →
            zip_with stance predictions labels = replicate (length features) Zero)
    as Hflat.
  { intros stance Hzero. rewrite Hlen'.
    assert (length labels = length predictions) as Hll by lia.
    clear Hpred Hlen Hlen'. revert labels Hll.
    induction predictions as [|p predictions IH]; intros [|l labels] Hll;
      [done|simpl in Hll; lia..|].
    simpl. rewrite Hzero by left. f_equal. apply IH; [|simpl in Hll; lia].
    intros q l' Hq. apply Hzero. by right. }
  assert (returnCells (replicate (length features) Zero) = ["-"; "-"]) as Hcells.
  { unfold returnCells, addReturns, analyzeReturns.
    rewrite foldl_add_zeros; [done|].
    apply Forall_forall. by intros r [-> _]%elem_of_replicate. }
  eexists _, _. split; [by apply runBacktest_zip|]. split.
  - intros Hnever. rewrite Hflat; [done|].
    intros p l Hp. by rewrite (Hnever p Hp).
  - intros Hnever. rewrite Hflat; [done|].
    intros p l Hp. by rewrite (Hnever p Hp).
Qed.

(** X16. A parameter equal to zero is shown as the placeholder "-" and
    is never coloured; a parameter of at least 0.05 is shown formatted and
    green, one of at most -0.05 formatted and red, and every other
    non-zero parameter, NaN included, formatted and uncoloured. *)
Theorem parameterCell_cases (parameter : float64) :
  let formatted := Sprintf "%.4f" parameter in
  ((parameter =? Zero)%F = true → parameterCell parameter = "-") ∧
  ((parameter >=? featureHighlightThreshold)%F = true →
   parameterCell parameter = Green formatted) ∧
  ((parameter >=? featureHighlightThreshold)%F = false →
   (parameter <=? - featureHighlightThreshold)%F = true →
   parameterCell parameter = Red formatted) ∧
  ((parameter =? Zero)%F = false →
   (parameter >=? featureHighlightThreshold)%F = false →
   (parameter <=? - featureHighlightThreshold)%F = false →
   parameterCell parameter = formatted) ∧
  (parameter = NaN → parameterCell parameter = formatted).
Proof.
  intros formatted. unfold parameterCell. fold formatted.
  change featureHighlightThreshold
    with (S754_finite false 7205759403792794 (-57)).
  split; [|split; [|split; [|split]]].
  - destruct parameter as [[]|[]| |[] m e]; try done.
  - intros Hge. rewrite Hge.
    destruct parameter as [[]|[]| |[] m e]; try done.
  - intros Hge Hle. rewrite Hge, Hle.
    destruct parameter as [[]|[]| |[] m e]; try done.
  - by intros -> -> ->.
  - by intros ->.
Qed.

End Signals.

Lemma runBacktest_signal_cases_witness :
  ∃ longReturns shortReturns,
    runBacktest (configuration:=Sample.configuration) (linear:=Sample.linear)
      [[One]] [One] [NaN; Zero] = Done (longReturns, shortReturns) ∧
    longReturns !! 0%nat = Some Zero ∧ shortReturns !! 0%nat = Some Zero.
Proof.
  destruct (runBacktest_signal_cases (configuration:=Sample.configuration)
              (linear:=Sample.linear) [[One]] [One] [NaN; Zero] [NaN]
              eq_refl eq_refl)
    as (longReturns & shortReturns & Hrun & Hnan & _).
  exists longReturns, shortReturns. split; [exact Hrun|].
  exact (Hnan 0%nat eq_refl).
Defined.

Lemma runBacktest_never_trades_witness :
  ∃ longReturns shortReturns,
    runBacktest (configuration:=Sample.configuration) (linear:=Sample.linear)
      [[One]; [One]] [One; One] [Zero; Zero] = Done (longReturns, shortReturns) ∧
    returnCells (configuration:=Sample.configuration) (commons:=Sample.commons)
      longReturns = ["-"; "-"].
Proof.
  destruct (runBacktest_never_trades (configuration:=Sample.configuration)
              (commons:=Sample.commons) (linear:=Sample.linear)
              [[One]; [One]] [One; One] [Zero; Zero] [Zero; Zero]
              eq_refl eq_refl)
    as (longReturns & shortReturns & Hrun & Hlong & _).
  exists longReturns, shortReturns. split; [exact Hrun|].
  apply Hlong. intros p Hp.
  assert (p = Zero) as ->.
  { apply elem_of_cons in Hp as [->|Hp]; [done|].
    apply elem_of_cons in Hp as [->|Hp]; [done|]. by apply not_elem_of_nil in Hp. }
  reflexivity.
Defined.

Lemma parameterCell_cases_witness :
  parameterCell (commons:=Sample.commons) (S754_zero true) = "-".
Proof.
  apply (proj1 (parameterCell_cases (commons:=Sample.commons) (S754_zero true))).
  reflexivity.
Defined.

(** ** Rates of change *)

(** X17. The rate of change of a finite non-zero price to itself is
    exactly 0.0; with a previous price of zero the division does not
    fail but the rate is never a number (it is an infinity or NaN); and a
    NaN on either side gives NaN. *)
Theorem getRateOfChange_edges :
  (∀ x, is_finite_nonzero x = true → getRateOfChange x x = Zero) ∧
  (∀ a s, is_finite (getRateOfChange a (S754_zero s)) = false) ∧
  (∀ a b, a = NaN ∨ b = NaN → getRateOfChange a b = NaN).
Proof.
  unfold getRateOfChange. split; [|split].
  - intros x Hx. by rewrite SFdiv_diag.
  - intros a s. by destruct a as [[]|[]| |[] m e], s.
  - intros a b [-> | ->]; [done|]. by destruct a.
Qed.

Lemma getRateOfChange_edges_witness : getRateOfChange (f64 110) (f64 110) = Zero.
Proof. apply (proj1 getRateOfChange_edges). reflexivity. Defined.

(** ** The second revision *)

Section Revision2.
Implicit Types (symbol : string) (assetMap referenceMap indexMap : timePriceMap).
Implicit Types (date : Time).

Lemma V2_getClosestRecordLoop_agrees n date indexMap :
  V2.getClosestRecordLoop n date indexMap =
  ((getClosestRecordLoop n date indexMap).1.2,
   (getClosestRecordLoop n date indexMap).2).
Proof.
  revert date. induction n as [|n IH]; intros date; simpl; [done|].
  destruct (indexMap !! date); [done|]. apply IH.
Qed.

(** X18. The lookup of the second revision, which returns no date, finds
    the same price and reports the same flag as the lookup of the last
    revision, on every series and date. *)
Theorem getClosestRecord_revisions_agree date indexMap :
  V2.getClosestRecord date indexMap =
  ((getClosestRecord date indexMap).1.2, (getClosestRecord date indexMap).2).
Proof. apply V2_getClosestRecordLoop_agrees. Qed.

Lemma V2_getClosestRecordLoop_more n date indexMap close :
  V2.getClosestRecordLoop n date indexMap = (close, true) →
  V2.getClosestRecordLoop (S n) date indexMap = (close, true).
Proof.
  revert date. induction n as [|n IH]; intros date; [done|].
  intros Hrun. simpl in Hrun |- *.
  destruct (indexMap !! date); [done|]. by apply IH.
Qed.

Lemma V2_dailyExample_Some symbol assetMap referenceMap indexMap date features label :
  V2.dailyExample symbol assetMap referenceMap indexMap date = Some (features, label) →
  ∃ currentIndexClose previousIndexClose assetMomentum referenceMomentum,
    V2.getClosestRecord date indexMap = (currentIndexClose, true) ∧
    V2.getClosestRecord (AddDate date (-1)) indexMap = (previousIndexClose, true) ∧
    features = [assetMomentum; referenceMomentum;
                getRateOfChange currentIndexClose previousIndexClose] ++
               oneHot ((WeekdayOf date + 6) `mod` 7).
Proof.
  unfold V2.dailyExample.
  destruct (V2.getClosestRecord date indexMap) as [ci ok] eqn:Hci.
  destruct ok; simpl; [|done].
  destruct (V2.getClosestRecord (AddDate date (-1)) indexMap) as [pi ok] eqn:Hpi.
  destruct ok; simpl; [|done].
  destruct (assetMap !! date) as [ca|]; simpl; [|done].
  destruct (assetMap !! AddDate date (-1)) as [pa|]; simpl; [|done].
  destruct (assetMap !! AddDate date 1) as [na|]; simpl; [|done].
  destruct (referenceMap !! date) as [cr|]; simpl; [|done].
  destruct (referenceMap !! AddDate date (-1)) as [pr|]; simpl; [|done].
  intros [= <- <-]. eexists ci, pi, _, _. split; [done|]. split; [done|].
  rewrite appendWeekdays_oneHot by apply WeekdayOf_range. done.
Qed.

(** X19. In the second revision the prior index close is looked up from
    the calendar day before the date processed.  So on a date for which
    the index has no close of its own (a weekend or a holiday), the prior
    close is the current close again, and the index momentum of the
    example, its third feature, is the rate of change of that close to
    itself: 0.0 for a finite non-zero close. *)
Theorem V2_index_momentum_without_close
    symbol assetMap referenceMap indexMap date features label :
  V2.dailyExample symbol assetMap referenceMap indexMap date = Some (features, label) →
  indexMap !! date = None →
  ∃ close,
    V2.getClosestRecord date indexMap = (close, true) ∧
    V2.getClosestRecord (AddDate date (-1)) indexMap = (close, true) ∧
    features !! 2%nat = Some (getRateOfChange close close) ∧
    (is_finite_nonzero close = true → features !! 2%nat = Some Zero).
Proof.
  intros Hex Hmiss.
  apply V2_dailyExample_Some in Hex
    as (ci & pi & assetMomentum & referenceMomentum & Hci & Hpi & ->).
  assert (V2.getClosestRecord (AddDate date (-1)) indexMap = (ci, true)) as Hsame.
  { unfold V2.getClosestRecord in Hci |- *.
    apply V2_getClosestRecordLoop_more.
    simpl in Hci. by rewrite Hmiss in Hci. }
  rewrite Hsame in Hpi. injection Hpi as <-.
  exists ci. split; [done|]. split; [done|]. split; [done|].
  intros Hfinite. simpl. f_equal.
  unfold getRateOfChange. by rewrite SFdiv_diag.
Qed.

End Revision2.

Lemma V2_index_momentum_without_close_witness :
  ∃ features label,
    V2.dailyExample "ETHUSDT" Sample.assetMap Sample.referenceMap Sample.indexMap
      (Sample.day 101) = Some (features, label) ∧
    features !! 2%nat = Some Zero.
Proof.
  destruct (V2.dailyExample "ETHUSDT" Sample.assetMap Sample.referenceMap
              Sample.indexMap (Sample.day 101)) as [[features label]|] eqn:Hex;
    [|vm_compute in Hex; discriminate].
  exists features, label. split; [reflexivity|].
  destruct (V2_index_momentum_without_close _ _ _ _ _ _ _ Hex)
    as (close & Hcurrent & _ & _ & Hzero).
  - vm_compute. reflexivity.
  - apply Hzero. vm_compute in Hcurrent. injection Hcurrent as <-. reflexivity.
Defined.

(** ** The first revision *)

Section Revision1.
Context {configuration : Configuration}.
Implicit Types (symbol : string) (assetMap referenceMap : timePriceMap).

Lemma V1_appendWeekdays_fmap weekday (dailyFeatures : list float64) :
  V1.appendWeekdays weekday dailyFeatures =
  dailyFeatures ++
  ((λ j, if decide (j = Z.rem (weekday - 1) 7) then One else Zero) <$> seqZ 1 5).
Proof.
  unfold V1.appendWeekdays, daysPerWeek.
  change (7 - 1 - 1) with 5. generalize (Z.rem (weekday - 1) 7). intros idx.
  generalize (seqZ 1 5). intros js. revert dailyFeatures.
  induction js as [|j js IH]; intros fs; simpl.
  - by rewrite app_nil_r.
  - by rewrite IH, <- app_assoc.
Qed.

Lemma V1_dailyExample_Some symbol assetMap referenceMap current previous
    features label :
  V1.dailyExample symbol assetMap referenceMap current previous
    = Some (features, label) →
  StartDate ≤ Timestamp current ≤ EndDate ∧
  is_Some (assetMap !! Timestamp current) ∧
  is_Some (assetMap !! Timestamp previous) ∧
  is_Some (assetMap !! AddDate (Timestamp current) 1) ∧
  is_Some (referenceMap !! Timestamp current) ∧
  is_Some (referenceMap !! Timestamp previous) ∧
  length features = 8%nat ∧
  features !! 2%nat = Some (getRateOfChange (Close current) (Close previous)).
Proof.
  unfold V1.dailyExample, Before.
  destruct (Z.ltb_spec (Timestamp current) StartDate); simpl; [done|].
  destruct (Z.ltb_spec EndDate (Timestamp current)); simpl; [done|].
  destruct (assetMap !! Timestamp current) as [ca|]; simpl; [|done].
  destruct (assetMap !! Timestamp previous) as [pa|]; simpl; [|done].
  destruct (assetMap !! AddDate (Timestamp current) 1) as [na|]; simpl; [|done].
  destruct (referenceMap !! Timestamp current) as [cr|]; simpl; [|done].
  destruct (referenceMap !! Timestamp previous) as [pr|]; simpl; [|done].
  intros [= <- <-]. rewrite V1_appendWeekdays_fmap.
  repeat split; try done; try lia; by eexists.
Qed.

(** The features of an example of the first revision, with the weekday
    indicators computed from the day after the current index record. *)
Lemma V1_dailyExample_features symbol assetMap referenceMap current previous
    features label :
  V1.dailyExample symbol assetMap referenceMap current previous
    = Some (features, label) →
  ∃ assetMomentum referenceMomentum,
    features =
    [assetMomentum; referenceMomentum;
     getRateOfChange (Close current) (Close previous)] ++
    ((λ j, if decide (j = Z.rem (WeekdayOf (AddDate (Timestamp current) 1) - 1) 7)
           then One else Zero) <$> seqZ 1 5).
Proof.
  unfold V1.dailyExample.
  destruct (Before (Timestamp current) StartDate || Before EndDate (Timestamp current));
    [done|].
  destruct (assetMap !! Timestamp current) as [ca|]; simpl; [|done].
  destruct (assetMap !! Timestamp previous) as [pa|]; simpl; [|done].
  destruct (assetMap !! AddDate (Timestamp current) 1) as [na|]; simpl; [|done].
  destruct (referenceMap !! Timestamp current) as [cr|]; simpl; [|done].
  destruct (referenceMap !! Timestamp previous) as [pr|]; simpl; [|done].
  intros [= <- <-]. rewrite V1_appendWeekdays_fmap. by eexists _, _.
Qed.

(** X20. An example of the first revision carries, after its three
    momentum features, five indicators for the weekday of the next close,
    the day after the current index record.  They stand under the five
    weekday columns of the header, Tuesday to Saturday, which follow the
    columns of the symbol and the three momentum features: the indicator
    under a column is 1.0 exactly when the next close falls on the weekday
    the column names.  So on these five days exactly the indicator of the
    day is 1.0, and for a next close on a Sunday or a Monday all five are
    0.0. *)
Theorem V1_dailyExample_weekdays symbol assetMap referenceMap current previous
    features label :
  V1.dailyExample symbol assetMap referenceMap current previous
    = Some (features, label) →
  let weekday := WeekdayOf (AddDate (Timestamp current) 1) in
  ∃ assetMomentum referenceMomentum indicators,
    features =
    [assetMomentum; referenceMomentum;
     getRateOfChange (Close current) (Close previous)] ++ indicators ∧
    V1.header =
    ["Symbol"; "Momentum"; "BTC"; IndexSymbol] ++ V1.weekdays ++
    ["Intercept"; "IS R²"; "OOS R²"] ∧
    length indicators = length V1.weekdays ∧
    (∀ (j : nat) column,
        V1.weekdays !! j = Some column →
        indicators !! j
        = Some (if decide (longDayNames !! Z.to_nat weekday = Some column)
                then One else Zero)) ∧
    (∀ (k : nat) column,
        (3 ≤ k < 8)%nat →
        V1.header !! S k = Some column →
        features !! k
        = Some (if decide (longDayNames !! Z.to_nat weekday = Some column)
                then One else Zero)) ∧
    (Tuesday ≤ weekday ≤ Saturday →
     ∀ j, 0 ≤ j < 5 →
       indicators !! Z.to_nat j
       = Some (if decide (j = weekday - Tuesday) then One else Zero)) ∧
    (weekday = Sunday ∨ weekday = Monday → indicators = replicate 5 Zero).
Proof.
  intros Hex weekday.
  apply V1_dailyExample_features in Hex
    as (assetMomentum & referenceMomentum & ->).
  fold weekday.
  pose proof (WeekdayOf_range (AddDate (Timestamp current) 1)) as Hweekday.
  fold weekday in Hweekday. clearbody weekday.
  exists assetMomentum, referenceMomentum. eexists.
  split; [reflexivity|]. split; [reflexivity|].
  unfold Sunday, Monday, Tuesday, Saturday.
  assert (weekday = 0 ∨ weekday = 1 ∨ weekday = 2 ∨ weekday = 3 ∨ weekday = 4 ∨
          weekday = 5 ∨ weekday = 6) as Hcases by lia.
  split; [done|]. split; [|split; [|split]].
  - intros j column Hcolumn.
    do 5 (destruct j as [|j]; [injection Hcolumn as <-;
      destruct Hcases as [->|[->|[->|[->|[->|[->| ->]]]]]]; reflexivity|]).
    done.
  - intros k column Hk Hcolumn.
    do 3 (destruct k as [|k]; [lia|]).
    do 5 (destruct k as [|k]; [injection Hcolumn as <-;
      destruct Hcases as [->|[->|[->|[->|[->|[->| ->]]]]]]; reflexivity|]).
    lia.
  - intros Hday j Hj.
    assert (j = 0 ∨ j = 1 ∨ j = 2 ∨ j = 3 ∨ j = 4) as Hjs by lia.
    destruct Hcases as [->|[->|[->|[->|[->|[->| ->]]]]]]; try lia;
      destruct Hjs as [->|[->|[->|[->| ->]]]]; reflexivity.
  - intros [-> | ->]; reflexivity.
Qed.

(** The routing of a list of candidate examples by their time stamps. *)
Lemma foldl_route {X} (example : X → option (list float64 * float64))
    (stamp : X → Time) (xs : list X) (p : partitions) :
  let q := foldl (λ p x, match example x with
                         | Some e => routeExample (stamp x) e p
                         | None => p
                         end) p xs in
  let before := filter (λ x, stamp x < SplitDate) xs in
  let from := filter (λ x, SplitDate ≤ stamp x) xs in
  trainingFeatures q = trainingFeatures p ++ (omap example before).*1 ∧
  trainingLabels q = trainingLabels p ++ (omap example before).*2 ∧
  testFeatures q = testFeatures p ++ (omap example from).*1 ∧
  testLabels q = testLabels p ++ (omap example from).*2.
Proof.
  revert p. induction xs as [|x xs IH]; intros p; simpl.
  - by rewrite !app_nil_r.
  - destruct (IH (match example x with
                  | Some e => routeExample (stamp x) e p
                  | None => p
                  end)) as (-> & -> & -> & ->).
    rewrite !filter_cons. unfold routeExample, Before.
    destruct (example x) as [[features label]|] eqn:Hex.
    + destruct (Z.ltb_spec (stamp x) SplitDate).
      * rewrite decide_True, decide_False by lia. simpl. rewrite Hex. simpl.
        by rewrite <- !app_assoc.
      * rewrite decide_False, decide_True by lia. simpl. rewrite Hex. simpl.
        by rewrite <- !app_assoc.
    + destruct (decide (stamp x < SplitDate)), (decide (SplitDate ≤ stamp x));
        simpl; rewrite ?Hex; done.
Qed.

(** X21. The loop of the first revision pairs every index record but the
    first with the record before it and never indexes out of range, even
    for an empty index.  The training partition holds the examples of the
    pairs whose current record is stamped before [SplitDate] and the test
    partition those of the others, in input order.  A pair gives an
    example only if its current record is stamped in
    [[StartDate, EndDate]], [EndDate] included, and the asset and the
    reference have their closes at the stamps of both records; every
    feature vector has eight entries, the third being the rate of change
    between the closes of the two index records. *)
Theorem V1_forRecords_partitions symbol assetMap referenceMap
    (indexRecords : list Record_) :
  let pairs := zip (drop 1 indexRecords) indexRecords in
  let example := λ pair : Record_ * Record_,
    V1.dailyExample symbol assetMap referenceMap pair.1 pair.2 in
  let before := filter (λ pair, Timestamp pair.1 < SplitDate) pairs in
  let from := filter (λ pair, SplitDate ≤ Timestamp pair.1) pairs in
  (∃ p,
      V1.forRecords symbol assetMap referenceMap indexRecords = Done p ∧
      trainingFeatures p = (omap example before).*1 ∧
      trainingLabels p = (omap example before).*2 ∧
      testFeatures p = (omap example from).*1 ∧
      testLabels p = (omap example from).*2) ∧
  (∀ current previous features label,
      V1.dailyExample symbol assetMap referenceMap current previous
        = Some (features, label) →
      StartDate ≤ Timestamp current ≤ EndDate ∧
      is_Some (assetMap !! Timestamp current) ∧
      is_Some (assetMap !! Timestamp previous) ∧
      is_Some (assetMap !! AddDate (Timestamp current) 1) ∧
      is_Some (referenceMap !! Timestamp current) ∧
      is_Some (referenceMap !! Timestamp previous) ∧
      length features = 8%nat ∧
      features !! 2%nat = Some (getRateOfChange (Close current) (Close previous))).
Proof.
  intros pairs example before from.
  split; [|intros *; apply V1_dailyExample_Some].
  unfold V1.forRecords.
  replace (length indexRecords - 1)%nat with (length pairs)
    by (unfold pairs; rewrite length_zip, length_drop; lia).
  rewrite (forRange_foldl _
             (λ p pair, match example pair with
                        | Some e => routeExample (Timestamp pair.1) e p
                        | None => p
                        end) pairs).
  - eexists. split; [reflexivity|].
    destruct (foldl_route example (λ pair, Timestamp pair.1) pairs noExamples)
      as (-> & -> & -> & ->).
    done.
  - intros k [current previous] p Hk.
    apply lookup_zip_with_Some in Hk as (? & ? & [= <- <-] & Hcurrent & Hprevious).
    rewrite lookup_drop in Hcurrent.
    unfold index. rewrite Hcurrent. simpl.
    rewrite Nat.sub_0_r, Hprevious. simpl.
    unfold example. simpl.
    by destruct (V1.dailyExample symbol assetMap referenceMap current previous).
Qed.

End Revision1.

Lemma V1_dailyExample_weekdays_witness :
  let assetMap := <[Sample.day 103 := f64 130]> Sample.assetMap in
  let referenceMap := <[Sample.day 102 := f64 70]> Sample.referenceMap in
  let current := {| Timestamp := Sample.day 102; Close := f64 13 |} in
  let previous := {| Timestamp := Sample.day 100; Close := f64 12 |} in
  ∃ features label,
    V1.dailyExample (configuration:=Sample.configuration) "ETHUSDT"
      assetMap referenceMap current previous = Some (features, label) ∧
    WeekdayOf (AddDate (Sample.day 102) 1) = Tuesday ∧
    WeekdayOf (Sample.day 102) = Monday ∧
    V1.header (configuration:=Sample.configuration) !! 4%nat = Some "Tuesday" ∧
    features !! 3%nat = Some One ∧
    features !! 4%nat = Some Zero.
Proof.
  intros assetMap referenceMap current previous.
  destruct (V1.dailyExample (configuration:=Sample.configuration) "ETHUSDT"
              assetMap referenceMap current previous)
    as [[features label]|] eqn:Hex; [|vm_compute in Hex; discriminate].
  exists features, label. split; [reflexivity|].
  split; [vm_compute; reflexivity|]. split; [vm_compute; reflexivity|].
  split; [reflexivity|].
  destruct (V1_dailyExample_weekdays (configuration:=Sample.configuration)
              _ _ _ _ _ _ _ Hex)
    as (assetMomentum & referenceMomentum & indicators & _ & _ & _ & _ &
        Hcolumns & _).
  split.
  - exact (Hcolumns 3%nat "Tuesday" ltac:(lia) eq_refl).
  - exact (Hcolumns 4%nat "Wednesday" ltac:(lia) eq_refl).
Defined.

Lemma V1_forRecords_partitions_witness :
  let indexRecords :=
    [ {| Timestamp := Sample.day 100; Close := f64 12 |};
      {| Timestamp := Sample.day 101; Close := f64 13 |} ] in
  ∃ p,
    V1.forRecords (configuration:=Sample.configuration) "ETHUSDT"
      Sample.assetMap Sample.referenceMap indexRecords = Done p ∧
    length (trainingFeatures p) = 1%nat.
Proof.
  intros indexRecords.
  destruct (proj1 (V1_forRecords_partitions (configuration:=Sample.configuration)
                     "ETHUSDT" Sample.assetMap Sample.referenceMap indexRecords))
    as (p & Hrun & Htraining & _).
  exists p. split; [exact Hrun|].
  rewrite Htraining. vm_compute. reflexivity.
Defined.

(** ** Examples and the inputs of an asset *)

Section AssetInputs.
Context {configuration : Configuration} {ohlc : Ohlc}.
Implicit Types (symbol : string) (referenceMap indexMap : timePriceMap).
Implicit Types (date : Time).

Lemma GetDate_bounds t : GetDate t ≤ t < GetDate t + nsPerDay.
Proof.
  unfold GetDate. pose proof (Z.mod_pos_bound t nsPerDay nsPerDay_pos). lia.
Qed.

(** X22. The start date of an asset bounds its examples: with the series
    of the asset loaded from a start date, every date that yields an
    example is strictly later than that start date, because the example
    needs the session close of the day before. *)
Theorem dailyExample_after_start symbol start referenceMap indexMap date
    features label :
  dailyExample symbol (loadDailyRecords symbol (Some start) true false)
    referenceMap indexMap date = Some (features, label) →
  start < date.
Proof.
  intros Hex. apply dailyExample_Some in Hex
    as (found & ci & pfound & pi & ca & pa & na & cr & pr &
        _ & _ & _ & _ & Hprevious & _).
  assert (is_Some (loadDailyRecords symbol (Some start) true false
                     !! AddDate date (-1))) as Hsome by (by eexists).
  unfold loadDailyRecords in Hsome.
  apply is_Some_loadDailyRecords in Hsome as (record & _ & Hkept & Hkey).
  unfold kept, keyOf in Hkept, Hkey. simpl in Hkept.
  apply andb_true_iff in Hkept as [Hstart _].
  apply negb_true_iff in Hstart. unfold Before in Hstart.
  apply Z.ltb_ge in Hstart.
  pose proof (GetDate_bounds (Timestamp record)) as Hday.
  rewrite Hkey in Hday. unfold AddDate in Hday. lia.
Qed.

(** X23. For the reference asset itself the reference feature is 0.0 on
    every example, and with a holding time of zero days the label is the
    rate of change of the current close to itself: 0.0 for a finite
    non-zero close. *)
Theorem dailyExample_self_reference symbol assetMap referenceMap indexMap date
    features label :
  dailyExample symbol assetMap referenceMap indexMap date = Some (features, label) →
  (symbol = bitcoinSymbol → EnableReference = true →
   features !! (if EnableMomentum then 1 else 0)%nat = Some Zero) ∧
  (HoldingTime = 0 →
   ∃ close, assetMap !! date = Some close ∧
            label = getRateOfChange close close ∧
            (is_finite_nonzero close = true → label = Zero)).
Proof.
  intros Hex. apply dailyExample_Some in Hex
    as (found & ci & pfound & pi & ca & pa & na & cr & pr &
        _ & _ & _ & Hcurrent & _ & Hnext & _ & _ & -> & ->).
  split.
  - intros -> ->. rewrite decide_False by (by intros []).
    by destruct EnableMomentum.
  - intros Hzero. rewrite Hzero, AddDate_0, Hcurrent in Hnext.
    injection Hnext as <-. exists ca. split; [done|]. split; [done|].
    intros Hfinite. unfold getRateOfChange. by rewrite SFdiv_diag.
Qed.

End AssetInputs.

Lemma dailyExample_after_start_witness :
  ∃ features label,
    dailyExample (configuration:=Sample.configuration) "ETHUSDT"
      (loadDailyRecords (ohlc:=Sample.ohlc) "ETHUSDT"
         (Some (Sample.day 100)) true false)
      Sample.referenceMap Sample.indexMap (Sample.day 101)
    = Some (features, label) ∧
    Sample.day 100 < Sample.day 101.
Proof.
  destruct (dailyExample (configuration:=Sample.configuration) "ETHUSDT"
              (loadDailyRecords (ohlc:=Sample.ohlc) "ETHUSDT"
                 (Some (Sample.day 100)) true false)
              Sample.referenceMap Sample.indexMap (Sample.day 101))
    as [[features label]|] eqn:Hex; [|vm_compute in Hex; discriminate].
  exists features, label. split; [reflexivity|].
  exact (dailyExample_after_start (configuration:=Sample.configuration)
           (ohlc:=Sample.ohlc) _ _ _ _ _ _ _ Hex).
Defined.

Lemma dailyExample_self_reference_witness :
  ∃ features label,
    dailyExample (configuration:=Sample.configuration) bitcoinSymbol
      Sample.assetMap Sample.referenceMap Sample.indexMap (Sample.day 101)
    = Some (features, label) ∧
    features !! 1%nat = Some Zero.
Proof.
  destruct (dailyExample (configuration:=Sample.configuration) bitcoinSymbol
              Sample.assetMap Sample.referenceMap Sample.indexMap (Sample.day 101))
    as [[features label]|] eqn:Hex; [|vm_compute in Hex; discriminate].
  exists features, label. split; [reflexivity|].
  exact (proj1 (dailyExample_self_reference (configuration:=Sample.configuration)
                  _ _ _ _ _ _ _ Hex) eq_refl eq_refl).
Defined.
